(** * A shallow embedding of the realtime voice client

    The development follows two source files:

    - [client_api/client/realtime_client.py], class [RealtimeClient]: the
      session bookkeeping, the interruption sequence, the audio pacer and the
      tool-call dispatcher, all driven by [handle_messages];
    - [main.py]: the local voice-activity gate of [record_and_stream_audio].

    Python objects are modelled by the type [value] (what [json.loads]
    produces), exceptions by [exn], and a coroutine of the client by a
    function of the monad [M], which threads the client object, collects the
    observable effects (messages written to the socket, callback invocations,
    console output, sleeps) and stops at the first exception raised.
    Python's [float] is IEEE binary64, modelled by Rocq's primitive floats. *)

From Stdlib Require Import ZArith List String Ascii Bool Lia Floats Uint63.
From Stdlib.Strings Require Import Byte.
Import ListNotations.

Set Warnings "-inexact-float,-register-all".

Local Open Scope string_scope.
Local Open Scope Z_scope.

(** ** Python values *)

Definition bytes : Type := list byte.

Inductive value : Type :=
| VNone
| VBool (b : bool)
| VInt (n : Z)
| VFloat (x : float)
| VStr (s : string)
| VList (items : list value)
| VDict (fields : list (string * value)).

Inductive exn : Type :=
| AttributeError
| KeyError (key : string)
| TypeError
| JSONDecodeError
| BinasciiError
| ValueError
| NameError
| ToolError.

Inductive result (A : Type) : Type :=
| Ok (a : A)
| Raise (e : exn).

Arguments Ok {A} a.
Arguments Raise {A} e.

(** [len(x)] of a sequence. *)
Definition len {A : Type} (l : list A) : Z := Z.of_nat (List.length l).

(** Conversion of a Python [int] to [float]; exact below [2^53], which covers
    every buffer length and every sum of samples used here. *)
Definition float_of_Z (z : Z) : float :=
  if z <? 0 then PrimFloat.opp (PrimFloat.of_uint63 (Uint63.of_Z (- z)))
  else PrimFloat.of_uint63 (Uint63.of_Z z).

(** Truth value of an object, as tested by [if x:] and [not x]. *)
Definition truthy (v : value) : bool :=
  match v with
  | VNone => false
  | VBool b => b
  | VInt n => negb (n =? 0)
  | VFloat x => negb (PrimFloat.eqb x 0)
  | VStr s => negb (String.eqb s "")
  | VList items => match items with [] => false | _ :: _ => true end
  | VDict fields => match fields with [] => false | _ :: _ => true end
  end.

(** [x == "literal"]. *)
Definition eq_str (v : value) (s : string) : bool :=
  match v with
  | VStr t => String.eqb t s
  | _ => false
  end.

Fixpoint lookup (k : string) (fields : list (string * value)) : option value :=
  match fields with
  | [] => None
  | (k', v) :: rest => if String.eqb k' k then Some v else lookup k rest
  end.

(** [d.get(k, default)]; only a [dict] has the method. *)
Definition dict_get (d : value) (k : string) (default : value) : result value :=
  match d with
  | VDict fields =>
      match lookup k fields with
      | Some v => Ok v
      | None => Ok default
      end
  | _ => Raise AttributeError
  end.

(** [d[k]] for a string key [k]. *)
Definition subscript (d : value) (k : string) : result value :=
  match d with
  | VDict fields =>
      match lookup k fields with
      | Some v => Ok v
      | None => Raise (KeyError k)
      end
  | _ => Raise TypeError
  end.

(** [x in d] where the keys of [d] are the strings [keys]; a list or a dict
    is unhashable and the test raises. *)
Definition key_in (v : value) (keys : list string) : result bool :=
  match v with
  | VStr s => Ok (existsb (String.eqb s) keys)
  | VList _ | VDict _ => Raise TypeError
  | _ => Ok false
  end.

(** ** Observable effects

    What a coroutine does to the outside: console output, messages written
    to the socket, calls of the callbacks the user supplied (which are taken
    to return normally) and sleeps. *)

Inductive effect : Type :=
| Print (text : string)
| PrintValue (prefix : string) (v : value)
| PrintExn (prefix : string) (e : exn)
| WsSend (event : value)
| CallOnTextDelta (delta : value)
| CallOnAudioDelta (chunk : bytes)
| CallOnInterrupt
| CallExtraHandler (event_type : value) (event : value)
| Sleep (seconds : float).

(** ** The client object *)

Record RealtimeClient : Type := mkClient {
  on_text_delta : bool;
  on_audio_delta : bool;
  on_interrupt : bool;
  extra_event_handlers : list string;
  _current_response_id : value;
  _current_item_id : value;
  _is_responding : bool;
  _audio_buffer : bytes;
  _last_audio_time : float;
  _current_content_index : Z;
  _current_audio_sample_count : Z
}.

(** Attributes assigned once in [__init__] and never afterwards. *)
Definition _min_audio_chunk_size : Z := 3200.
Definition _playback_rate : float := 0.95%float.

(** [RealtimeClient.__init__]: the three callbacks are optional (the flag
    says whether one was supplied), [extra] lists the keys of
    [extra_event_handlers]. *)
Definition __init__ (text audio interrupt : bool) (extra : list string)
  : RealtimeClient :=
  {| on_text_delta := text;
     on_audio_delta := audio;
     on_interrupt := interrupt;
     extra_event_handlers := extra;
     _current_response_id := VNone;
     _current_item_id := VNone;
     _is_responding := false;
     _audio_buffer := [];
     _last_audio_time := 0%float;
     _current_content_index := 0;
     _current_audio_sample_count := 0 |}.

Definition set_current_response_id (v : value) (c : RealtimeClient) :=
  {| on_text_delta := on_text_delta c;
     on_audio_delta := on_audio_delta c;
     on_interrupt := on_interrupt c;
     extra_event_handlers := extra_event_handlers c;
     _current_response_id := v;
     _current_item_id := _current_item_id c;
     _is_responding := _is_responding c;
     _audio_buffer := _audio_buffer c;
     _last_audio_time := _last_audio_time c;
     _current_content_index := _current_content_index c;
     _current_audio_sample_count := _current_audio_sample_count c |}.

Definition set_current_item_id (v : value) (c : RealtimeClient) :=
  {| on_text_delta := on_text_delta c;
     on_audio_delta := on_audio_delta c;
     on_interrupt := on_interrupt c;
     extra_event_handlers := extra_event_handlers c;
     _current_response_id := _current_response_id c;
     _current_item_id := v;
     _is_responding := _is_responding c;
     _audio_buffer := _audio_buffer c;
     _last_audio_time := _last_audio_time c;
     _current_content_index := _current_content_index c;
     _current_audio_sample_count := _current_audio_sample_count c |}.

Definition set_is_responding (b : bool) (c : RealtimeClient) :=
  {| on_text_delta := on_text_delta c;
     on_audio_delta := on_audio_delta c;
     on_interrupt := on_interrupt c;
     extra_event_handlers := extra_event_handlers c;
     _current_response_id := _current_response_id c;
     _current_item_id := _current_item_id c;
     _is_responding := b;
     _audio_buffer := _audio_buffer c;
     _last_audio_time := _last_audio_time c;
     _current_content_index := _current_content_index c;
     _current_audio_sample_count := _current_audio_sample_count c |}.

Definition set_audio_buffer (b : bytes) (c : RealtimeClient) :=
  {| on_text_delta := on_text_delta c;
     on_audio_delta := on_audio_delta c;
     on_interrupt := on_interrupt c;
     extra_event_handlers := extra_event_handlers c;
     _current_response_id := _current_response_id c;
     _current_item_id := _current_item_id c;
     _is_responding := _is_responding c;
     _audio_buffer := b;
     _last_audio_time := _last_audio_time c;
     _current_content_index := _current_content_index c;
     _current_audio_sample_count := _current_audio_sample_count c |}.

Definition set_last_audio_time (t : float) (c : RealtimeClient) :=
  {| on_text_delta := on_text_delta c;
     on_audio_delta := on_audio_delta c;
     on_interrupt := on_interrupt c;
     extra_event_handlers := extra_event_handlers c;
     _current_response_id := _current_response_id c;
     _current_item_id := _current_item_id c;
     _is_responding := _is_responding c;
     _audio_buffer := _audio_buffer c;
     _last_audio_time := t;
     _current_content_index := _current_content_index c;
     _current_audio_sample_count := _current_audio_sample_count c |}.

Definition set_current_audio_sample_count (n : Z) (c : RealtimeClient) :=
  {| on_text_delta := on_text_delta c;
     on_audio_delta := on_audio_delta c;
     on_interrupt := on_interrupt c;
     extra_event_handlers := extra_event_handlers c;
     _current_response_id := _current_response_id c;
     _current_item_id := _current_item_id c;
     _is_responding := _is_responding c;
     _audio_buffer := _audio_buffer c;
     _last_audio_time := _last_audio_time c;
     _current_content_index := _current_content_index c;
     _current_audio_sample_count := n |}.

(** ** The monad of client coroutines

    A computation receives the client object and returns its outcome, the
    object as it left it and the effects it performed, oldest first.  An
    exception keeps the assignments and effects made before it was raised. *)

Definition M (A : Type) : Type :=
  RealtimeClient -> result A * RealtimeClient * list effect.

Definition ret {A : Type} (a : A) : M A := fun c => (Ok a, c, []).

Definition bind {A B : Type} (m : M A) (k : A -> M B) : M B :=
  fun c =>
    match m c with
    | (Ok a, c1, out1) =>
        match k a c1 with
        | (r, c2, out2) => (r, c2, (out1 ++ out2)%list)
        end
    | (Raise e, c1, out1) => (Raise e, c1, out1)
    end.

Notation "x <- m ;; k" := (bind m (fun x => k))
  (at level 61, m at next level, right associativity).
Notation "m ;; k" := (bind m (fun _ => k))
  (at level 61, right associativity).

Definition lift {A : Type} (r : result A) : M A := fun c => (r, c, []).
Definition emit (e : effect) : M unit := fun c => (Ok tt, c, [e]).
Definition get : M RealtimeClient := fun c => (Ok c, c, []).
Definition modify (f : RealtimeClient -> RealtimeClient) : M unit :=
  fun c => (Ok tt, f c, []).
Definition when (b : bool) (m : M unit) : M unit := if b then m else ret tt.

(** What a coroutine left behind. *)
Definition outcome {A : Type} (r : result A * RealtimeClient * list effect) :=
  fst (fst r).
Definition final {A : Type} (r : result A * RealtimeClient * list effect) :=
  snd (fst r).
Definition effects {A : Type} (r : result A * RealtimeClient * list effect) :=
  snd r.

(** ** The methods of [RealtimeClient] *)

Definition nl : string := String "010"%char "".

Section Client.

(** Functions the client calls and does not define.  [json_loads] is
    [json.loads] and [b64decode] is [base64.b64decode]; either raises on a
    malformed argument.  [py_str] is the builtin [str].  [import_rag_pipeline]
    is the statement [from .utils import rag_pipeline] of [call_tool]: it
    runs the module [utils] and yields the retrieval function, or raises what
    the module raises while it is loaded; the function itself calls the
    embedding and vector-store services and may raise as well. *)
Variable json_loads : value -> result value.
Variable b64decode : value -> result bytes.
Variable py_str : value -> string.
Variable import_rag_pipeline : result (value -> result value).

(** In [utils.py] as it stands the second line uses [chromadb], which is
    imported two lines further down, so that loading the module raises
    [NameError]: [Utils.import_rag_pipeline] below is this statement for the
    module of the repository. *)

(** [await self.ws.send(json.dumps(event))]; every [value] serialises, and
    the socket is taken to accept the message. *)
Definition ws_send (event : value) : M unit := emit (WsSend event).

Definition create_response (functions : value) : M unit :=
  let response := [("modalities", VList [VStr "text"; VStr "audio"])] in
  let response :=
    if truthy functions then (response ++ [("tools", functions)])%list
    else response in
  ws_send (VDict [("type", VStr "response.create");
                  ("response", VDict response)]).

Definition send_function_result (call_id : value) (res : value) : M unit :=
  ws_send (VDict [("type", VStr "conversation.item.create");
                  ("item", VDict [("type", VStr "function_call_output");
                                  ("call_id", call_id);
                                  ("output", res)])]) ;;
  create_response VNone.

Definition cancel_response : M unit :=
  ws_send (VDict [("type", VStr "response.cancel")]).

Definition truncate_response : M unit :=
  c <- get ;;
  when (truthy (_current_item_id c))
    (let audio_ms := (_current_audio_sample_count c * 1000) / 24000 in
     ws_send (VDict [("type", VStr "conversation.item.truncate");
                     ("item_id", _current_item_id c);
                     ("content_index", VInt (_current_content_index c));
                     ("audio_end_ms", VInt audio_ms)])).

Definition call_tool (call_id tool_name tool_arguments : value) : M unit :=
  rag_pipeline <- lift import_rag_pipeline ;;
  query <- lift (subscript tool_arguments "query") ;;
  tool_result <- lift (rag_pipeline query) ;;
  send_function_result call_id (VStr (py_str tool_result)).

Definition handle_interruption : M unit :=
  c <- get ;;
  if negb (_is_responding c) then ret tt
  else
    emit (Print (nl ++ "[Handling interruption]")) ;;
    when (truthy (_current_response_id c)) cancel_response ;;
    when (truthy (_current_item_id c)) truncate_response ;;
    modify (set_is_responding false) ;;
    modify (set_current_response_id VNone) ;;
    modify (set_current_item_id VNone).

(** The branch of [handle_messages] for [response.audio.delta];
    [current_time] is the reading of [asyncio.get_event_loop().time()]. *)
Definition target_delay (buffered : Z) : float :=
  let chunk_duration := PrimFloat.div (float_of_Z buffered) 48000%float in
  PrimFloat.mul chunk_duration _playback_rate.

Definition on_audio_delta_event (event : value) (current_time : float)
  : M unit :=
  c <- get ;;
  when (on_audio_delta c)
    (delta <- lift (subscript event "delta") ;;
     audio_bytes <- lift (b64decode delta) ;;
     modify (set_audio_buffer (_audio_buffer c ++ audio_bytes)%list) ;;
     c <- get ;;
     let time_since_last := PrimFloat.sub current_time (_last_audio_time c) in
     let target := target_delay (len (_audio_buffer c)) in
     when ((_min_audio_chunk_size <=? len (_audio_buffer c))
           && PrimFloat.leb target time_since_last)
       (let chunk_to_play := _audio_buffer c in
        modify (set_audio_buffer []) ;;
        modify (set_last_audio_time current_time) ;;
        modify (set_current_audio_sample_count
                  (_current_audio_sample_count c + len chunk_to_play / 2)) ;;
        emit (Sleep (PrimFloat.mul target 0.1%float)) ;;
        emit (CallOnAudioDelta chunk_to_play))).

(** The body of the loop of [handle_messages] for one message: [event] is
    what [json.loads(message)] returned. *)
Definition handle_event (event : value) (current_time : float) : M unit :=
  event_type <- lift (dict_get event "type" VNone) ;;
  if eq_str event_type "error" then
    e1 <- lift (dict_get event "error" (VDict [])) ;;
    message <- lift (dict_get e1 "message" (VStr "Unknown error")) ;;
    emit (PrintValue "Error: " message) ;;
    e2 <- lift (dict_get event "error" (VDict [])) ;;
    code <- lift (dict_get e2 "code" VNone) ;;
    emit (PrintValue "Code: " code) ;;
    e3 <- lift (dict_get event "error" (VDict [])) ;;
    event_id <- lift (dict_get e3 "event_id" VNone) ;;
    emit (PrintValue "Event ID: " event_id)
  else if eq_str event_type "response.created" then
    response <- lift (dict_get event "response" (VDict [])) ;;
    id <- lift (dict_get response "id" VNone) ;;
    modify (set_current_response_id id) ;;
    modify (set_is_responding true) ;;
    modify (set_audio_buffer [])
  else if eq_str event_type "response.output_item.added" then
    item <- lift (dict_get event "item" (VDict [])) ;;
    id <- lift (dict_get item "id" VNone) ;;
    modify (set_current_item_id id)
  else if eq_str event_type "response.done" then
    c <- get ;;
    when (match _audio_buffer c with [] => false | _ :: _ => true end
          && on_audio_delta c)
      (let final_chunk := _audio_buffer c in
       modify (set_audio_buffer []) ;;
       emit (CallOnAudioDelta final_chunk)) ;;
    modify (set_is_responding false) ;;
    modify (set_current_response_id VNone) ;;
    modify (set_current_item_id VNone)
  else if eq_str event_type "input_audio_buffer.speech_started" then
    emit (Print (nl ++ "[Speech detected]")) ;;
    c <- get ;;
    when (_is_responding c) handle_interruption ;;
    when (on_interrupt c) (emit CallOnInterrupt)
  else if eq_str event_type "input_audio_buffer.speech_stopped" then
    emit (Print (nl ++ "[Speech ended]"))
  else if eq_str event_type "response.text.delta" then
    c <- get ;;
    when (on_text_delta c)
      (delta <- lift (subscript event "delta") ;;
       emit (CallOnTextDelta delta))
  else if eq_str event_type "response.audio.delta" then
    on_audio_delta_event event current_time
  else if eq_str event_type "response.function_call_arguments.done" then
    call_id <- lift (subscript event "call_id") ;;
    name <- lift (subscript event "name") ;;
    arguments <- lift (subscript event "arguments") ;;
    tool_arguments <- lift (json_loads arguments) ;;
    call_tool call_id name tool_arguments
  else
    c <- get ;;
    known <- lift (key_in event_type (extra_event_handlers c)) ;;
    when known (emit (CallExtraHandler event_type event)).

(** [async for message in self.ws]: the messages received until the
    connection closes, each with the clock reading at the time it is
    handled. *)
Fixpoint message_loop (messages : list (value * float)) : M unit :=
  match messages with
  | [] => ret tt
  | (event, current_time) :: rest =>
      handle_event event current_time ;; message_loop rest
  end.

(** [handle_messages]: an exception of the loop body is reported on the
    console and raised again, which ends the coroutine. *)
Definition handle_messages (messages : list (value * float)) : M unit :=
  fun c =>
    match message_loop messages c with
    | (Ok a, c', out) => (Ok a, c', out)
    | (Raise e, c', out) =>
        (Raise e, c', (out ++ [PrintExn "Error in message handling: " e])%list)
    end.

End Client.

(** ** The local voice-activity gate of [main.py] *)

Module Vad.

Definition CHUNK : Z := 1024.
Definition RATE : Z := 24000.
Definition SILENCE_THRESHOLD : float := 250%float.
Definition SILENCE_DURATION : float := 0.3%float.

(** One little-endian 16-bit signed sample. *)
Definition int16_le (lo hi : byte) : Z :=
  let u := Z.of_N (Byte.to_N lo) + 256 * Z.of_N (Byte.to_N hi) in
  if u <? 32768 then u else u - 65536.

(** [np.frombuffer(audio_data, dtype=np.int16)]: the size of the buffer has
    to be a multiple of the size of a sample. *)
Fixpoint frombuffer_int16 (audio_data : bytes) : result (list Z) :=
  match audio_data with
  | [] => Ok []
  | [_] => Raise ValueError
  | lo :: hi :: rest =>
      match frombuffer_int16 rest with
      | Ok samples => Ok (int16_le lo hi :: samples)
      | Raise e => Raise e
      end
  end.

(** Arithmetic on an [int16] array stays in [int16] and wraps around. *)
Definition wrap_int16 (z : Z) : Z := (z + 32768) mod 65536 - 32768.

Definition np_square (samples : list Z) : list Z :=
  map (fun x => wrap_int16 (x * x)) samples.

(** [np.mean] of an integer array accumulates in [float64]; the partial sums
    are integers far below [2^53], hence exact.  An empty array gives [nan]. *)
Definition np_mean (samples : list Z) : float :=
  PrimFloat.div (float_of_Z (fold_right Z.add 0 samples))
                (float_of_Z (len samples)).

Definition is_silent (audio_data : bytes) : result bool :=
  match frombuffer_int16 audio_data with
  | Ok audio_array =>
      let rms := PrimFloat.sqrt (np_mean (np_square audio_array)) in
      Ok (PrimFloat.ltb rms SILENCE_THRESHOLD)
  | Raise e => Raise e
  end.

(** The globals [is_speaking], [is_processing] and [is_user_speaking] and the
    locals [silence_start] and [audio_buffer] of [record_and_stream_audio]. *)
Record gate : Type := mkGate {
  is_speaking : bool;
  is_processing : bool;
  is_user_speaking : bool;
  silence_start : option float;
  audio_buffer : list bytes
}.

Inductive action : Type :=
| LogInfo (text : string)
| StartProcessAudio (utterance : list bytes).

(** The part of the loop body before the final [if is_speaking:]; [now] is
    the reading of [time.time()], taken at most once per frame. *)
Definition classify (silent : bool) (now : float) (g : gate)
  : gate * list action :=
  if silent then
    if is_speaking g then
      match silence_start g with
      | None =>
          ({| is_speaking := is_speaking g;
              is_processing := is_processing g;
              is_user_speaking := is_user_speaking g;
              silence_start := Some now;
              audio_buffer := audio_buffer g |}, [])
      | Some started =>
          if PrimFloat.ltb SILENCE_DURATION (PrimFloat.sub now started) then
            ({| is_speaking := false;
                is_processing := if negb (is_processing g) then true
                                 else is_processing g;
                is_user_speaking := false;
                silence_start := None;
                audio_buffer := [] |},
             if negb (is_processing g)
             then [StartProcessAudio (audio_buffer g)]
             else [])
          else (g, [])
      end
    else (g, [])
  else
    ({| is_speaking := if negb (is_speaking g) then true
                       else is_speaking g;
        is_processing := is_processing g;
        is_user_speaking := if negb (is_speaking g) then true
                            else is_user_speaking g;
        silence_start := None;
        audio_buffer := audio_buffer g |},
     if negb (is_speaking g)
     then [LogInfo "Speech detected, listening..."]
     else []).

(** One iteration of the loop of [record_and_stream_audio] on the frame
    [data] read from the microphone. *)
Definition frame_step (data : bytes) (now : float) (g : gate)
  : result (gate * list action) :=
  match is_silent data with
  | Ok silent =>
      let '(g1, out) := classify silent now g in
      Ok (if is_speaking g1
          then {| is_speaking := is_speaking g1;
                  is_processing := is_processing g1;
                  is_user_speaking := is_user_speaking g1;
                  silence_start := silence_start g1;
                  audio_buffer := (audio_buffer g1 ++ [data])%list |}
          else g1, out)
  | Raise e => Raise e
  end.

(** The loop over the frames read until the first exception, which ends it;
    the worker thread started by [StartProcessAudio] is not run here, so
    [is_processing] is only ever set by these steps. *)
Fixpoint record_and_stream_audio (frames : list (bytes * float)) (g : gate)
  : gate * list action :=
  match frames with
  | [] => (g, [])
  | (data, now) :: rest =>
      match frame_step data now g with
      | Ok (g1, out1) =>
          let '(g2, out2) := record_and_stream_audio rest g1 in
          (g2, (out1 ++ out2)%list)
      | Raise e => (g, [LogInfo "Error in record_and_stream_audio"])
      end
  end.

(** A silent frame read while the silence, begun at [started], has not yet
    lasted more than [SILENCE_DURATION]. *)
Definition short_silence (started : float) (frame : bytes * float) : Prop :=
  is_silent (fst frame) = Ok true /\
  PrimFloat.ltb SILENCE_DURATION (PrimFloat.sub (snd frame) started) = false.

(** The state of the gate when the loop starts, a frame of silence and a
    frame the gate takes for speech. *)
Definition listening : gate := mkGate false false false None [].
Definition quiet : bytes := [x00; x00].
Definition loud : bytes := [xfa; x00].

End Vad.

(** ** Instances of the library functions

    The theorems below hold for every behaviour of the functions the client
    imports.  To run the model on concrete messages, this module gives a
    decoder for canonical padded Base64 text, and [json.loads], [str] and a
    retrieval function restricted to the few arguments used in the examples,
    where they agree with Python. *)

Module Sample.

Definition b64_index (ch : ascii) : option N :=
  let n := N_of_ascii ch in
  if (65 <=? n)%N && (n <=? 90)%N then Some (n - 65)%N
  else if (97 <=? n)%N && (n <=? 122)%N then Some (n - 71)%N
  else if (48 <=? n)%N && (n <=? 57)%N then Some (n + 4)%N
  else if (n =? 43)%N then Some 62%N
  else if (n =? 47)%N then Some 63%N
  else None.

Definition byte_of_N (n : N) : byte :=
  match Byte.of_N (n mod 256) with
  | Some b => b
  | None => x00
  end.

Definition is_pad (ch : ascii) : bool := (N_of_ascii ch =? 61)%N.

Fixpoint b64_quads (text : string) : option bytes :=
  match text with
  | EmptyString => Some []
  | String c1 (String c2 (String c3 (String c4 rest))) =>
      match b64_index c1, b64_index c2 with
      | Some i1, Some i2 =>
          let b1 := byte_of_N (i1 * 4 + i2 / 16) in
          match b64_index c3, b64_index c4, rest with
          | Some i3, Some i4, _ =>
              match b64_quads rest with
              | Some tail =>
                  Some (b1 :: byte_of_N (i2 * 16 + i3 / 4)
                           :: byte_of_N (i3 * 64 + i4) :: tail)
              | None => None
              end
          | Some i3, None, EmptyString =>
              if is_pad c4
              then Some [b1; byte_of_N (i2 * 16 + i3 / 4)]
              else None
          | None, None, EmptyString =>
              if is_pad c3 && is_pad c4 then Some [b1] else None
          | _, _, _ => None
          end
      | _, _ => None
      end
  | _ => None
  end.

Definition b64decode (v : value) : result bytes :=
  match v with
  | VStr text =>
      match b64_quads text with
      | Some data => Ok data
      | None => Raise BinasciiError
      end
  | _ => Raise TypeError
  end.

Fixpoint replicate (n : nat) (s : string) : string :=
  match n with
  | O => ""
  | S k => s ++ replicate k s
  end.

(** The Base64 text of 1000, 1500 and 3600 zero bytes. *)
Definition zeros_1000 : string := replicate 333 "AAAA" ++ "AA==".
Definition zeros_1500 : string := replicate 500 "AAAA".
Definition zeros_3600 : string := replicate 1200 "AAAA".

Definition dquote : string := String "034"%char "".

(** The text [{"query":"X"}]. *)
Definition query_X : string :=
  "{" ++ dquote ++ "query" ++ dquote ++ ":" ++ dquote ++ "X" ++ dquote ++ "}".

(** [json.loads] on the texts used below: [query_X] is parsed, any other
    text is taken not to be JSON. *)
Definition json_loads (v : value) : result value :=
  match v with
  | VStr text =>
      if String.eqb text query_X then Ok (VDict [("query", VStr "X")])
      else Raise JSONDecodeError
  | _ => Raise TypeError
  end.

(** [str] on strings, where it is the identity, and on [None]. *)
Definition py_str (v : value) : string :=
  match v with
  | VStr s => s
  | _ => "None"
  end.

(** A retrieval function that answers every query with ["ANSWER"]. *)
Definition rag_pipeline (query : value) : result value := Ok (VStr "ANSWER").

(** Events as the service sends them. *)
Definition response_created (id : string) : value :=
  VDict [("type", VStr "response.created");
         ("response", VDict [("id", VStr id)])].

Definition output_item_added (id : string) : value :=
  VDict [("type", VStr "response.output_item.added");
         ("item", VDict [("id", VStr id)])].

Definition response_done : value := VDict [("type", VStr "response.done")].

Definition speech_started : value :=
  VDict [("type", VStr "input_audio_buffer.speech_started")].

Definition audio_delta (text : string) : value :=
  VDict [("type", VStr "response.audio.delta"); ("delta", VStr text)].

Definition function_call (call_id name arguments : string) : value :=
  VDict [("type", VStr "response.function_call_arguments.done");
         ("call_id", VStr call_id);
         ("name", VStr name);
         ("arguments", VStr arguments)].

(** [handle_messages] and the body of its loop with these instances. *)
Definition run (messages : list (value * float)) (c : RealtimeClient) :=
  handle_messages json_loads b64decode py_str (Ok rag_pipeline) messages c.

Definition step (event : value) (now : float) (c : RealtimeClient) :=
  handle_event json_loads b64decode py_str (Ok rag_pipeline) event now c.

(** A client in the middle of the response [resp_1], of whose item
    [item_1] two seconds of audio (48000 samples) were played. *)
Definition responding : RealtimeClient :=
  set_current_audio_sample_count 48000
    (set_current_item_id (VStr "item_1")
       (set_current_response_id (VStr "resp_1")
          (set_is_responding true (__init__ true true true [])))).

End Sample.

(** ** Reading a run *)

(** The messages written to the socket, oldest first. *)
Fixpoint sent (out : list effect) : list value :=
  match out with
  | [] => []
  | WsSend event :: rest => event :: sent rest
  | _ :: rest => sent rest
  end.

(** The chunks handed to the playback callback [on_audio_delta]. *)
Fixpoint played (out : list effect) : list bytes :=
  match out with
  | [] => []
  | CallOnAudioDelta chunk :: rest => chunk :: played rest
  | _ :: rest => played rest
  end.

(** How many times [on_interrupt] was called. *)
Fixpoint interrupts (out : list effect) : nat :=
  match out with
  | [] => O
  | CallOnInterrupt :: rest => S (interrupts rest)
  | _ :: rest => interrupts rest
  end.

(** [event] is an object whose [type] is [name]. *)
Definition event_type_is (event : value) (name : string) : Prop :=
  dict_get event "type" VNone = Ok (VStr name).

(** A [response.created] event whose [response], if any, is an object. *)
Definition is_response_created (event : value) : Prop :=
  event_type_is event "response.created" /\
  exists fields, dict_get event "response" (VDict []) = Ok (VDict fields).

(** A [response.audio.delta] event whose [delta] decodes to [chunk]. *)
Definition is_audio_delta (b64decode : value -> result bytes)
  (event : value) (chunk : bytes) : Prop :=
  event_type_is event "response.audio.delta" /\
  exists delta, subscript event "delta" = Ok delta /\
                b64decode delta = Ok chunk.

(** A [response.function_call_arguments.done] event with its three fields. *)
Definition is_function_call (event call_id name arguments : value) : Prop :=
  event_type_is event "response.function_call_arguments.done" /\
  subscript event "call_id" = Ok call_id /\
  subscript event "name" = Ok name /\
  subscript event "arguments" = Ok arguments.

(** The two messages of the interruption sequence and the two of a tool
    result, as the client builds them. *)
Definition cancel_message : value :=
  VDict [("type", VStr "response.cancel")].

Definition truncate_message (item_id : value) (content_index audio_end_ms : Z)
  : value :=
  VDict [("type", VStr "conversation.item.truncate");
         ("item_id", item_id);
         ("content_index", VInt content_index);
         ("audio_end_ms", VInt audio_end_ms)].

Definition function_call_output (call_id : value) (output : string) : value :=
  VDict [("type", VStr "conversation.item.create");
         ("item", VDict [("type", VStr "function_call_output");
                         ("call_id", call_id);
                         ("output", VStr output)])].

Definition response_create_message : value :=
  VDict [("type", VStr "response.create");
         ("response", VDict [("modalities", VList [VStr "text"; VStr "audio"])])].

(** The release test of the pacer on a buffer of [buffered] bytes. *)
Definition release_due (buffered : Z) (current_time last : float) : bool :=
  (3200 <=? buffered) &&
  PrimFloat.leb (target_delay buffered) (PrimFloat.sub current_time last).

(** The client after a release of the chunk [buf] at time [now]. *)
Definition released (buf : bytes) (now : float) (c : RealtimeClient)
  : RealtimeClient :=
  set_current_audio_sample_count
    (_current_audio_sample_count c + len buf / 2)
    (set_last_audio_time now (set_audio_buffer [] (set_audio_buffer buf c))).

Definition total_bytes (chunks : list bytes) : Z := len (List.concat chunks).

Definition samples_of (chunks : list bytes) : Z :=
  fold_right Z.add 0 (map (fun chunk => len chunk / 2) chunks).

From Stdlib Require Import NArith.

(** ** Loading [utils.py]

    [from .utils import rag_pipeline] runs the top-level statements of
    [utils.py] in the order they are written.  A statement is kept with the
    global names it reads when it runs and the names it binds; reading a
    name that is not bound yet raises [NameError].  The packages [openai]
    and [chromadb] are taken to be installed and their calls to return. *)

Module Utils.

Record statement : Type := mkStatement {
  reads : list string;
  binds : list string
}.

(** The top-level statements of [utils.py], lines 1, 2, 3, 4, 6, 9, 21
    and 36: [from openai import OpenAI];
    [chroma_client = chromadb.PersistentClient(...)];
    [collection = chroma_client.get_collection(...)]; [import chromadb];
    [client = OpenAI()]; and the three [def]s. *)
Definition module_body : list statement :=
  [mkStatement [] ["OpenAI"];
   mkStatement ["chromadb"] ["chroma_client"];
   mkStatement ["chroma_client"] ["collection"];
   mkStatement [] ["chromadb"];
   mkStatement ["OpenAI"] ["client"];
   mkStatement [] ["get_embedding"];
   mkStatement [] ["query_chroma"];
   mkStatement [] ["rag_pipeline"]].

Definition bound (namespace : list string) (name : string) : bool :=
  existsb (String.eqb name) namespace.

Fixpoint load (body : list statement) (namespace : list string)
  : result (list string) :=
  match body with
  | [] => Ok namespace
  | s :: rest =>
      if forallb (bound namespace) (reads s)
      then load rest (binds s ++ namespace)%list
      else Raise NameError
  end.

(** The import statement of [call_tool]; [rag_pipeline] is the function the
    module defines, which calls the embedding service and the vector
    store. *)
Definition import_rag_pipeline (rag_pipeline : value -> result value)
  : result (value -> result value) :=
  match load module_body [] with
  | Ok _ => Ok rag_pipeline
  | Raise e => Raise e
  end.

End Utils.

(** ** Further predicates on events and clients *)

(** No response is active and no response id is held. *)
Definition idle_consistent (c : RealtimeClient) : Prop :=
  _is_responding c = false -> _current_response_id c = VNone.

(** What no event changes: the callbacks, the extra handlers and the
    content index. *)
Definition same_configuration (c c' : RealtimeClient) : Prop :=
  on_text_delta c' = on_text_delta c /\
  on_audio_delta c' = on_audio_delta c /\
  on_interrupt c' = on_interrupt c /\
  extra_event_handlers c' = extra_event_handlers c /\
  _current_content_index c' = _current_content_index c.

(** A [response.text.delta] event carrying [delta]. *)
Definition is_text_delta (event delta : value) : Prop :=
  event_type_is event "response.text.delta" /\
  subscript event "delta" = Ok delta.

(** The event types [handle_messages] has a branch for. *)
Definition builtin_event_types : list string :=
  ["error"; "response.created"; "response.output_item.added";
   "response.done"; "input_audio_buffer.speech_started";
   "input_audio_buffer.speech_stopped"; "response.text.delta";
   "response.audio.delta"; "response.function_call_arguments.done"].

(** The calls of the callbacks, in order. *)
Fixpoint text_deltas (out : list effect) : list value :=
  match out with
  | [] => []
  | CallOnTextDelta delta :: rest => delta :: text_deltas rest
  | _ :: rest => text_deltas rest
  end.

Fixpoint extra_calls (out : list effect) : list (value * value) :=
  match out with
  | [] => []
  | CallExtraHandler event_type event :: rest =>
      (event_type, event) :: extra_calls rest
  | _ :: rest => extra_calls rest
  end.

(** The value of a field of an object, or a default. *)
Definition field_or (k : string) (fields : list (string * value))
  (default : value) : value :=
  match lookup k fields with
  | Some v => v
  | None => default
  end.

(** ** Further predicates on the voice-activity gate *)

(** The utterances handed to [process_audio], in order. *)
Fixpoint handoffs (out : list Vad.action) : list (list bytes) :=
  match out with
  | [] => []
  | Vad.StartProcessAudio utterance :: rest => utterance :: handoffs rest
  | _ :: rest => handoffs rest
  end.

(** An utterance that begins with a frame the gate took for speech. *)
Definition opens_with_speech (utterance : list bytes) : Prop :=
  exists first rest,
    utterance = first :: rest /\ Vad.is_silent first = Ok false.

(** The flags and locals of the recording loop agree with one another:
    [is_user_speaking] mirrors [is_speaking]; outside an utterance the
    buffer is empty and no silence is being timed; inside one the buffer
    starts with the frame that opened it. *)
Definition gate_consistent (g : Vad.gate) : Prop :=
  Vad.is_user_speaking g = Vad.is_speaking g /\
  (Vad.is_speaking g = false ->
   Vad.audio_buffer g = [] /\ Vad.silence_start g = None) /\
  (Vad.is_speaking g = true -> opens_with_speech (Vad.audio_buffer g)).

(** The 65536 frames of one sample, checked one by one: the frame is taken
    for silence exactly when the square of its sample, wrapped to 16 bits,
    is not negative. *)
Definition one_sample_rule (lo hi : N) : bool :=
  match Byte.of_N lo, Byte.of_N hi with
  | Some l, Some h =>
      match Vad.is_silent [l; h] with
      | Ok silent =>
          Bool.eqb silent
            (0 <=? Vad.wrap_int16 (Vad.int16_le l h * Vad.int16_le l h))
      | Raise _ => false
      end
  | _, _ => false
  end.

Definition byte_values : list N := map N.of_nat (seq 0 256).

(** ** The worker thread of [main.py]

    [process_audio] runs in a thread of its own on the utterance the loop
    handed off.  [connected] is what [ws and ws.sock and ws.sock.connected]
    reads in [process_audio], [still_connected] what it reads a moment later
    in [send_audio]; [ws_send] is [ws.send(json.dumps(event))], which raises
    when the socket has been closed; [b64encode] is
    [base64.b64encode(data).decode()]. *)

Module Worker.

Section Worker.

Variable b64encode : bytes -> string.
Variable ws_send : value -> result unit.

Definition append_message (audio_data : bytes) : value :=
  VDict [("type", VStr "input_audio_buffer.append");
         ("audio", VStr (b64encode audio_data))].

Definition commit_message : value :=
  VDict [("type", VStr "input_audio_buffer.commit")].

Definition create_message : value :=
  VDict [("event_id", VStr "event_123");
         ("type", VStr "response.create");
         ("response",
          VDict [("modalities", VList [VStr "text"; VStr "audio"]);
                 ("instructions", VStr "Please assist the user.")])].

(** The messages the socket accepted, and how the call ended. *)
Definition send (event : value) : list value * result unit :=
  match ws_send event with
  | Ok _ => ([event], Ok tt)
  | Raise e => ([], Raise e)
  end.

Definition send_audio (still_connected : bool) (audio_data : bytes)
  : list value * result unit :=
  if still_connected then send (append_message audio_data)
  else ([], Ok tt).

(** [process_audio]: the gate as it leaves it, the messages the socket
    accepted and how the thread ended. *)
Definition process_audio (connected still_connected : bool)
  (audio_buffer : list bytes) (g : Vad.gate)
  : Vad.gate * list value * result unit :=
  let done :=
    {| Vad.is_speaking := Vad.is_speaking g;
       Vad.is_processing := false;
       Vad.is_user_speaking := Vad.is_user_speaking g;
       Vad.silence_start := Vad.silence_start g;
       Vad.audio_buffer := Vad.audio_buffer g |} in
  if connected then
    match send_audio still_connected (List.concat audio_buffer) with
    | (sent1, Ok _) =>
        match send commit_message with
        | (sent2, Ok _) =>
            match send create_message with
            | (sent3, Ok _) => (done, (sent1 ++ sent2 ++ sent3)%list, Ok tt)
            | (sent3, Raise e) => (g, (sent1 ++ sent2 ++ sent3)%list, Raise e)
            end
        | (sent2, Raise e) => (g, (sent1 ++ sent2)%list, Raise e)
        end
    | (sent1, Raise e) => (g, sent1, Raise e)
    end
  else (done, [], Ok tt).

End Worker.

End Worker.

(** ** The text splitter of [loader.py] *)

Module Loader.

(** [l[start:stop]]: a negative index counts from the end, and both
    indices are clamped to the list. *)
Definition py_slice {A : Type} (l : list A) (start stop : Z) : list A :=
  let n := len l in
  let clamp i := if i <? 0 then Z.max 0 (i + n) else Z.min i n in
  firstn (Z.to_nat (clamp stop - clamp start))
         (skipn (Z.to_nat (clamp start)) l).

Fixpoint range_up (fuel : nat) (i stop step : Z) : list Z :=
  match fuel with
  | O => []
  | S fuel' =>
      if i <? stop then i :: range_up fuel' (i + step) stop step else []
  end.

(** [range(0, stop, step)] for [0 <= stop]: a zero step is an error, a
    negative one gives nothing. *)
Definition py_range (stop step : Z) : result (list Z) :=
  if step =? 0 then Raise ValueError
  else if step <? 0 then Ok []
  else Ok (range_up (Z.to_nat stop) 0 stop step).

(** The words of each chunk, before they are joined. *)
Definition word_chunks (words : list string) (words_per_chunk overlap : Z)
  : result (list (list string)) :=
  match py_range (len words) (words_per_chunk - overlap) with
  | Ok starts =>
      Ok (map (fun i => py_slice words i (i + words_per_chunk)) starts)
  | Raise e => Raise e
  end.

(** [split_text_into_chunks]; [findall] is [re.findall(r'\S+', text)], the
    maximal runs of characters that are not white space. *)
Definition split_text_into_chunks (findall : string -> list string)
  (text : string) (words_per_chunk overlap : Z) : result (list string) :=
  match word_chunks (findall text) words_per_chunk overlap with
  | Ok chunks => Ok (map (String.concat " ") chunks)
  | Raise e => Raise e
  end.

End Loader.

(** ** Receiving and playing audio in [main.py]

    [on_message] puts the audio of each [response.audio.delta] on
    [audio_queue]; [audio_playback_thread] takes the chunks off the queue
    and writes them to the output stream.  The queue is a list, oldest
    chunk first; the output stream is [None] before it is first opened and
    [Some active] afterwards. *)

Module Playback.

Inductive log_entry : Type :=
| LogInfo (text : string) (v : value)
| LogError (text : string)
| LogErrorValue (text : string) (v : value)
| LogErrorExn (text : string) (e : exn).

Section Receiver.

Variable json_loads : value -> result value.
Variable b64decode : value -> result bytes.

(** The [try] block of [on_message]: the queue as it leaves it, what it
    logged, and the exception that ended it, if any. *)
Definition on_message_body (message : value) (audio_queue : list bytes)
  : list bytes * list log_entry * result unit :=
  match json_loads message with
  | Raise e => (audio_queue, [], Raise e)
  | Ok event =>
      match subscript event "type" with
      | Raise e => (audio_queue, [], Raise e)
      | Ok event_type =>
          let received := [LogInfo "Received event: " event_type] in
          if eq_str event_type "response.audio.delta" then
            match subscript event "delta" with
            | Raise e => (audio_queue, received, Raise e)
            | Ok delta =>
                match b64decode delta with
                | Raise e => (audio_queue, received, Raise e)
                | Ok audio_data =>
                    ((audio_queue ++ [audio_data])%list, received, Ok tt)
                end
            end
          else if eq_str event_type "response.text.delta" then
            match dict_get event "delta" (VStr "") with
            | Raise e => (audio_queue, received, Raise e)
            | Ok delta =>
                (audio_queue,
                 (received ++ [LogInfo "Text response: " delta])%list, Ok tt)
            end
          else if eq_str event_type "error" then
            match dict_get event "message" (VStr "Unknown error") with
            | Raise e => (audio_queue, received, Raise e)
            | Ok message =>
                (audio_queue,
                 (received ++ [LogErrorValue "Error from API: " message])%list,
                 Ok tt)
            end
          else (audio_queue, received, Ok tt)
      end
  end.

(** [on_message]: every exception is caught and logged. *)
Definition on_message (message : value) (audio_queue : list bytes)
  : list bytes * list log_entry :=
  match on_message_body message audio_queue with
  | (audio_queue', logged, Ok _) => (audio_queue', logged)
  | (audio_queue', logged, Raise JSONDecodeError) =>
      (audio_queue', (logged ++ [LogError "Failed to decode message"])%list)
  | (audio_queue', logged, Raise (KeyError key)) =>
      (audio_queue',
       (logged ++ [LogErrorExn "Missing key in event: " (KeyError key)])%list)
  | (audio_queue', logged, Raise e) =>
      (audio_queue',
       (logged ++ [LogErrorExn "Unexpected error in on_message: " e])%list)
  end.

(** The messages of a connection, one call of [on_message] each. *)
Fixpoint on_messages (messages : list value) (audio_queue : list bytes)
  : list bytes :=
  match messages with
  | [] => audio_queue
  | message :: rest => on_messages rest (fst (on_message message audio_queue))
  end.

End Receiver.

Record player : Type := mkPlayer {
  audio_queue : list bytes;
  audio_output_stream : option bool
}.

Inductive output : Type :=
| OpenStream
| StopStream
| Write (audio_chunk : bytes)
| Sleep.

(** One turn of the loop of [audio_playback_thread]; [is_user_speaking] is
    the flag as the turn reads it. *)
Definition playback_turn (is_user_speaking : bool) (p : player)
  : player * list output :=
  if is_user_speaking then
    ({| audio_queue := [];
        audio_output_stream :=
          match audio_output_stream p with
          | Some _ => Some false
          | None => None
          end |},
     (match audio_output_stream p with
      | Some _ => [StopStream]
      | None => []
      end ++ [Sleep])%list)
  else
    match audio_queue p with
    | audio_chunk :: rest =>
        match audio_output_stream p with
        | Some true =>
            ({| audio_queue := rest; audio_output_stream := Some true |},
             [Write audio_chunk])
        | _ =>
            ({| audio_queue := rest; audio_output_stream := Some true |},
             [OpenStream; Write audio_chunk])
        end
    | [] =>
        match audio_output_stream p with
        | Some true =>
            ({| audio_queue := []; audio_output_stream := Some false |},
             [StopStream])
        | _ => (p, [])
        end
    end.

(** [turns] turns of the loop with the user silent. *)
Fixpoint playback (turns : nat) (p : player) : player * list output :=
  match turns with
  | O => (p, [])
  | S turns' =>
      let '(p1, out1) := playback_turn false p in
      let '(p2, out2) := playback turns' p1 in
      (p2, (out1 ++ out2)%list)
  end.

Fixpoint written (out : list output) : list bytes :=
  match out with
  | [] => []
  | Write audio_chunk :: rest => audio_chunk :: written rest
  | _ :: rest => written rest
  end.

(** A message [on_message] reads as an audio delta carrying [audio_data]. *)
Definition carries_audio (json_loads : value -> result value)
  (b64decode : value -> result bytes) (message : value) (audio_data : bytes)
  : Prop :=
  exists event delta,
    json_loads message = Ok event /\
    subscript event "type" = Ok (VStr "response.audio.delta") /\
    subscript event "delta" = Ok delta /\
    b64decode delta = Ok audio_data.

End Playback.

(** ** More sample messages *)

Module Sample2.

Definition text_delta (text : string) : value :=
  VDict [("type", VStr "response.text.delta"); ("delta", VStr text)].

(** An audio delta that lacks its [delta] field. *)
Definition empty_audio_delta : value :=
  VDict [("type", VStr "response.audio.delta")].

Definition error_event : value :=
  VDict [("type", VStr "error");
         ("error", VDict [("message", VStr "Invalid value");
                          ("code", VStr "invalid_value")])].

Definition bad_error_event : value :=
  VDict [("type", VStr "error"); ("error", VStr "boom")].

Definition session_created : value :=
  VDict [("type", VStr "session.created")].

(** A client with a playback callback only. *)
Definition listener : RealtimeClient := __init__ false true false [].

(** A client in the middle of the response [resp_1], with 1000 bytes of
    the item [item_1] waiting in the audio buffer. *)
Definition buffering : RealtimeClient :=
  set_audio_buffer (repeat x00 1000)
    (set_current_item_id (VStr "item_1")
       (set_current_response_id (VStr "resp_1")
          (set_is_responding true (__init__ true true true [])))).

(** A socket that accepts every message, and one that has been closed. *)
Definition ws_send_ok (event : value) : result unit := Ok tt.
Definition ws_send_closed (event : value) : result unit := Raise ValueError.

(** Base64 with padding, the inverse of [Sample.b64decode]. *)
Definition b64_char (n : N) : ascii :=
  if (n <? 26)%N then ascii_of_N (65 + n)
  else if (n <? 52)%N then ascii_of_N (71 + n)
  else if (n <? 62)%N then ascii_of_N (n - 4)
  else if (n =? 62)%N then "+"%char
  else "/"%char.

Fixpoint b64encode (data : bytes) : string :=
  match data with
  | [] => ""
  | [a] =>
      let x := Byte.to_N a in
      String (b64_char (x / 4))
        (String (b64_char (x mod 4 * 16)) "==")
  | [a; b] =>
      let x := Byte.to_N a in
      let y := Byte.to_N b in
      String (b64_char (x / 4))
        (String (b64_char (x mod 4 * 16 + y / 16))
           (String (b64_char (y mod 16 * 4)) "="))
  | a :: b :: c :: rest =>
      let x := Byte.to_N a in
      let y := Byte.to_N b in
      let z := Byte.to_N c in
      String (b64_char (x / 4))
        (String (b64_char (x mod 4 * 16 + y / 16))
           (String (b64_char (y mod 16 * 4 + z / 64))
              (String (b64_char (z mod 64)) (b64encode rest))))
  end.

(** The gate in an utterance, pausing since 1.1 s, while the previous
    utterance is still being processed. *)
Definition pausing : Vad.gate :=
  Vad.mkGate true true true (Some 1.1%float) [Vad.loud; Vad.quiet].

(** [re.findall(r'\S+', text)] on ASCII text. *)
Definition is_space (ch : ascii) : bool :=
  let n := N_of_ascii ch in
  ((n =? 32) || ((9 <=? n) && (n <=? 13)))%N.

Fixpoint findall_from (text word : string) : list string :=
  match text with
  | EmptyString =>
      match word with
      | EmptyString => []
      | _ => [word]
      end
  | String ch rest =>
      if is_space ch then
        match word with
        | EmptyString => findall_from rest ""
        | _ => word :: findall_from rest ""
        end
      else findall_from rest (word ++ String ch "")
  end.

Definition findall (text : string) : list string := findall_from text "".

(** [json.loads] on messages that are given already parsed. *)
Definition parsed (message : value) : result value := Ok message.

End Sample2.

(** * Properties of the client *)

Section ClientFacts.

Variable json_loads : value -> result value.
Variable b64decode : value -> result bytes.
Variable py_str : value -> string.
Variable import_rag_pipeline : result (value -> result value).

Local Abbreviation handle :=
  (handle_event json_loads b64decode py_str import_rag_pipeline).
Local Abbreviation loop :=
  (message_loop json_loads b64decode py_str import_rag_pipeline).

Lemma bind_lift_ok {A B : Type} (a : A) (k : A -> M B) (c : RealtimeClient) :
  bind (lift (Ok a)) k c = k a c.
Proof.
  unfold bind, lift. destruct (k a c) as [[r c2] out2]. reflexivity.
Qed.

Lemma bind_lift_raise {A B : Type} (e : exn) (k : A -> M B)
  (c : RealtimeClient) :
  bind (lift (Raise e)) k c = (Raise e, c, []).
Proof. reflexivity. Qed.

(** The dispatch of [handle_event] selects the branch of the event type. *)

Lemma handle_speech_started (event : value) (now : float) (c : RealtimeClient) :
  event_type_is event "input_audio_buffer.speech_started" ->
  handle event now c =
  (emit (Print (nl ++ "[Speech detected]")) ;;
   c <- get ;;
   when (_is_responding c) handle_interruption ;;
   when (on_interrupt c) (emit CallOnInterrupt)) c.
Proof.
  intros Htype. unfold handle_event. rewrite Htype, bind_lift_ok.
  reflexivity.
Qed.

(** What [handle_interruption] does while a response is active. *)
Lemma handle_interruption_active (c : RealtimeClient) :
  _is_responding c = true ->
  handle_interruption c =
  (Ok tt,
   set_current_item_id VNone
     (set_current_response_id VNone (set_is_responding false c)),
   ([Print (nl ++ "[Handling interruption]")]
    ++ (if truthy (_current_response_id c) then [WsSend cancel_message]
        else [])
    ++ (if truthy (_current_item_id c)
        then [WsSend (truncate_message
                        (_current_item_id c) (_current_content_index c)
                        (_current_audio_sample_count c * 1000 / 24000))]
        else []))%list).
Proof.
  intros Hresp. unfold handle_interruption, bind, get. rewrite Hresp.
  unfold truncate_response, cancel_response, ws_send, when, bind, get, emit,
    modify, ret.
  destruct (truthy (_current_response_id c));
    destruct (truthy (_current_item_id c)) eqn:Hitem; cbn;
    rewrite ?Hitem; reflexivity.
Qed.

(** The whole effect of a [speech_started] event. *)
Lemma speech_started_active (event : value) (now : float)
  (c : RealtimeClient) :
  event_type_is event "input_audio_buffer.speech_started" ->
  _is_responding c = true ->
  handle event now c =
  (Ok tt,
   set_current_item_id VNone
     (set_current_response_id VNone (set_is_responding false c)),
   ([Print (nl ++ "[Speech detected]");
     Print (nl ++ "[Handling interruption]")]
    ++ (if truthy (_current_response_id c) then [WsSend cancel_message]
        else [])
    ++ (if truthy (_current_item_id c)
        then [WsSend (truncate_message
                        (_current_item_id c) (_current_content_index c)
                        (_current_audio_sample_count c * 1000 / 24000))]
        else [])
    ++ (if on_interrupt c then [CallOnInterrupt] else []))%list).
Proof.
  intros Htype Hresp. rewrite (handle_speech_started _ _ _ Htype).
  unfold bind at 1. unfold emit at 1. unfold bind at 1. unfold get at 1.
  unfold bind at 1. rewrite Hresp. unfold when at 1.
  rewrite (handle_interruption_active _ Hresp).
  unfold when, emit, ret.
  destruct (on_interrupt c); cbn [app];
    rewrite <- ?app_assoc, ?app_nil_r; reflexivity.
Qed.

Lemma speech_started_idle (event : value) (now : float)
  (c : RealtimeClient) :
  event_type_is event "input_audio_buffer.speech_started" ->
  _is_responding c = false ->
  handle event now c =
  (Ok tt, c,
   (Print (nl ++ "[Speech detected]")
    :: (if on_interrupt c then [CallOnInterrupt] else []))%list).
Proof.
  intros Htype Hresp. rewrite (handle_speech_started _ _ _ Htype).
  unfold bind, emit, get. rewrite Hresp. unfold when, emit, ret.
  destruct (on_interrupt c); reflexivity.
Qed.

(** ** Interruption *)

(** C1 (as amended).  When an [input_audio_buffer.speech_started] event
    arrives while a response is active, the client sends, in this order, a
    [response.cancel] message (it carries its type only) if the current
    response id is set, then a [conversation.item.truncate] message with the
    current item id, the current content index and [audio_end_ms] equal to
    the played sample count times 1000 divided by 24000 (integer division)
    if the current item id is set; nothing else is sent, and afterwards
    [_is_responding], [_current_response_id] and [_current_item_id] are
    cleared. *)
Theorem interruption_sends_cancel_then_truncate
  (event : value) (now : float) (c : RealtimeClient) :
  event_type_is event "input_audio_buffer.speech_started" ->
  _is_responding c = true ->
  let r := handle event now c in
  outcome r = Ok tt /\
  sent (effects r) =
    ((if truthy (_current_response_id c) then [cancel_message] else []) ++
     (if truthy (_current_item_id c)
      then [truncate_message
              (_current_item_id c) (_current_content_index c)
              (_current_audio_sample_count c * 1000 / 24000)]
      else []))%list /\
  _is_responding (final r) = false /\
  _current_response_id (final r) = VNone /\
  _current_item_id (final r) = VNone.
Proof.
  intros Htype Hresp r. subst r.
  rewrite (speech_started_active _ _ _ Htype Hresp).
  unfold outcome, effects, final. cbn [fst snd].
  repeat split.
  destruct (truthy (_current_response_id c));
    destruct (truthy (_current_item_id c));
    destruct (on_interrupt c); reflexivity.
Qed.

(** C9.  When an [input_audio_buffer.speech_started] event arrives while no
    response is active, nothing is written to the socket (so neither a
    [response.cancel] nor a [conversation.item.truncate]) and the client
    object, with its current response id, current item id and
    [_is_responding], is left as it was. *)
Theorem speech_started_while_idle_is_noop
  (event : value) (now : float) (c : RealtimeClient) :
  event_type_is event "input_audio_buffer.speech_started" ->
  _is_responding c = false ->
  let r := handle event now c in
  outcome r = Ok tt /\
  sent (effects r) = [] /\
  final r = c.
Proof.
  intros Htype Hresp r. subst r.
  rewrite (speech_started_idle _ _ _ Htype Hresp).
  unfold outcome, effects, final. cbn [fst snd].
  repeat split. destruct (on_interrupt c); reflexivity.
Qed.

(** C10.  On every [input_audio_buffer.speech_started] event the callback
    [on_interrupt], when one was supplied, is called exactly once, as the
    last effect of the event, whether or not a response is active. *)
Theorem on_interrupt_called_on_every_speech_started
  (event : value) (now : float) (c : RealtimeClient) :
  event_type_is event "input_audio_buffer.speech_started" ->
  on_interrupt c = true ->
  let r := handle event now c in
  outcome r = Ok tt /\
  interrupts (effects r) = 1%nat /\
  exists before, effects r = (before ++ [CallOnInterrupt])%list.
Proof.
  intros Htype Hcb r. subst r.
  destruct (_is_responding c) eqn:Hresp.
  - rewrite (speech_started_active _ _ _ Htype Hresp), Hcb.
    unfold outcome, effects. cbn [fst snd].
    split; [reflexivity | split].
    + destruct (truthy (_current_response_id c));
        destruct (truthy (_current_item_id c)); reflexivity.
    + eexists. rewrite !app_assoc. reflexivity.
  - rewrite (speech_started_idle _ _ _ Htype Hresp), Hcb.
    unfold outcome, effects. cbn [fst snd].
    split; [reflexivity | split; [reflexivity |]].
    exists [Print (nl ++ "[Speech detected]")]. reflexivity.
Qed.

(** ** The audio pacer *)

Lemma len_app {A : Type} (l1 l2 : list A) :
  len (l1 ++ l2)%list = len l1 + len l2.
Proof. unfold len. rewrite length_app. lia. Qed.

Lemma len_nonneg {A : Type} (l : list A) : 0 <= len l.
Proof. unfold len. lia. Qed.

Lemma handle_audio_delta (event : value) (now : float) (c : RealtimeClient) :
  event_type_is event "response.audio.delta" ->
  handle event now c = on_audio_delta_event b64decode event now c.
Proof.
  intros Htype. unfold handle_event. rewrite Htype, bind_lift_ok.
  reflexivity.
Qed.

(** One audio delta, when a playback callback was supplied: the decoded
    bytes join the buffer, and the buffer is released or kept. *)
Lemma audio_delta_step (event : value) (now : float) (c : RealtimeClient)
  (chunk : bytes) :
  on_audio_delta c = true ->
  is_audio_delta b64decode event chunk ->
  handle event now c =
  let buf := (_audio_buffer c ++ chunk)%list in
  if release_due (len buf) now (_last_audio_time c)
  then (Ok tt, released buf now c,
        [Sleep (PrimFloat.mul (target_delay (len buf)) 0.1%float);
         CallOnAudioDelta buf])
  else (Ok tt, set_audio_buffer buf c, []).
Proof.
  intros Hcb [Htype [delta [Hdelta Hdecode]]].
  rewrite (handle_audio_delta _ _ _ Htype).
  unfold on_audio_delta_event. unfold bind at 1. unfold get at 1.
  rewrite Hcb. unfold when at 1.
  rewrite Hdelta, bind_lift_ok, Hdecode, bind_lift_ok.
  unfold bind at 1. unfold modify at 1. unfold bind at 1. unfold get at 1.
  cbn [_audio_buffer _last_audio_time set_audio_buffer].
  cbv zeta. unfold release_due, _min_audio_chunk_size.
  destruct ((3200 <=? len (_audio_buffer c ++ chunk)) &&
            PrimFloat.leb (target_delay (len (_audio_buffer c ++ chunk)))
              (PrimFloat.sub now (_last_audio_time c))); reflexivity.
Qed.

Lemma played_app (out1 out2 : list effect) :
  played (out1 ++ out2)%list = (played out1 ++ played out2)%list.
Proof.
  induction out1 as [|e out1 IH]; [reflexivity|].
  destruct e; cbn; rewrite ?IH; reflexivity.
Qed.

Lemma samples_of_app (l1 l2 : list bytes) :
  samples_of (l1 ++ l2)%list = samples_of l1 + samples_of l2.
Proof.
  unfold samples_of. induction l1 as [|a l1 IH]; cbn; [reflexivity|].
  rewrite IH. lia.
Qed.

Lemma samples_of_even (chunks : list bytes) :
  Forall (fun chunk => Z.even (len chunk) = true) chunks ->
  samples_of chunks = total_bytes chunks / 2.
Proof.
  unfold samples_of, total_bytes.
  induction 1 as [|a chunks Ha _ IH]; cbn [map fold_right List.concat].
  - reflexivity.
  - rewrite len_app, IH.
    apply Z.even_spec in Ha. destruct Ha as [k Hk]. rewrite Hk.
    rewrite (Z.mul_comm 2 k), Z.div_mul by lia.
    rewrite (Z.add_comm (k * 2)), Z.div_add by lia. lia.
Qed.

(** Sequencing of the loop over two batches of messages. *)
Lemma loop_app (l1 l2 : list (value * float)) (c : RealtimeClient) :
  loop (l1 ++ l2)%list c = (loop l1 ;; loop l2) c.
Proof.
  revert c. induction l1 as [|[event now] l1 IH]; intros c.
  - cbn [app message_loop]. unfold bind, ret.
    destruct (loop l2 c) as [[r c2] out2]. reflexivity.
  - cbn [app message_loop]. unfold bind.
    destruct (handle event now c) as [[[[]|e] c1] out1]; [|reflexivity].
    rewrite IH. unfold bind.
    destruct (loop l1 c1) as [[[[]|e] c2] out2]; [|reflexivity].
    destruct (loop l2 c2) as [[r c3] out3].
    rewrite app_assoc. reflexivity.
Qed.

(** A run of audio deltas: every byte received is either played or still
    buffered, in the order received, and the sample count has grown by half
    the size of each chunk released. *)
Lemma audio_deltas_run (deltas : list (value * float)) (chunks : list bytes) :
  Forall2 (fun d chunk => is_audio_delta b64decode (fst d) chunk)
          deltas chunks ->
  forall c : RealtimeClient,
  on_audio_delta c = true ->
  let r := loop deltas c in
  outcome r = Ok tt /\
  on_audio_delta (final r) = true /\
  (List.concat (played (effects r)) ++ _audio_buffer (final r))%list =
    (_audio_buffer c ++ List.concat chunks)%list /\
  _current_audio_sample_count (final r) =
    _current_audio_sample_count c + samples_of (played (effects r)).
Proof.
  induction 1 as [|[event now] chunk deltas chunks Hd _ IH];
    intros c Hcb; cbv zeta.
  - cbn. rewrite app_nil_r. repeat split; [assumption | lia].
  - cbn [message_loop fst] in *. unfold bind.
    rewrite (audio_delta_step _ now _ _ Hcb Hd). cbv zeta.
    destruct (release_due (len (_audio_buffer c ++ chunk)) now
                (_last_audio_time c)).
    + specialize (IH (released (_audio_buffer c ++ chunk)%list now c) Hcb).
      cbv zeta in IH.
      destruct (loop deltas (released (_audio_buffer c ++ chunk)%list now c))
        as [[r c2] out2].
      unfold outcome, final, effects in *. cbn [fst snd] in *.
      destruct IH as (Hr & Hcb2 & Hbytes & Hcount).
      repeat split; try assumption.
      * cbn [app played List.concat]. rewrite <- !app_assoc, Hbytes.
        reflexivity.
      * rewrite Hcount. cbn [app played]. unfold samples_of.
        cbn. lia.
    + specialize (IH (set_audio_buffer (_audio_buffer c ++ chunk)%list c) Hcb).
      cbv zeta in IH.
      destruct (loop deltas (set_audio_buffer (_audio_buffer c ++ chunk)%list c))
        as [[r c2] out2].
      unfold outcome, final, effects in *. cbn [fst snd] in *.
      destruct IH as (Hr & Hcb2 & Hbytes & Hcount).
      repeat split; try assumption.
      cbn [_audio_buffer set_audio_buffer] in Hbytes.
      cbn [app List.concat]. rewrite Hbytes, <- app_assoc. reflexivity.
Qed.

Lemma response_created_step (event : value) (now : float)
  (c : RealtimeClient) :
  is_response_created event ->
  exists id : value,
    handle event now c =
    (Ok tt,
     set_audio_buffer []
       (set_is_responding true (set_current_response_id id c)),
     []).
Proof.
  intros [Htype [fields Hresp]].
  destruct (lookup "id" fields) as [id|] eqn:Hid.
  - exists id. unfold handle_event. rewrite Htype, bind_lift_ok.
    cbn [eq_str String.eqb Ascii.eqb Bool.eqb andb].
    rewrite Hresp, bind_lift_ok. unfold dict_get. rewrite Hid.
    reflexivity.
  - exists VNone. unfold handle_event. rewrite Htype, bind_lift_ok.
    cbn [eq_str String.eqb Ascii.eqb Bool.eqb andb].
    rewrite Hresp, bind_lift_ok. unfold dict_get. rewrite Hid.
    reflexivity.
Qed.

Lemma response_done_step (event : value) (now : float)
  (c : RealtimeClient) :
  event_type_is event "response.done" ->
  handle event now c =
  let flush := match _audio_buffer c with [] => false | _ :: _ => true end
               && on_audio_delta c in
  (Ok tt,
   set_current_item_id VNone
     (set_current_response_id VNone
        (set_is_responding false
           (if flush then set_audio_buffer [] c else c))),
   if flush then [CallOnAudioDelta (_audio_buffer c)] else []).
Proof.
  intros Htype. unfold handle_event. rewrite Htype, bind_lift_ok.
  cbn [eq_str String.eqb Ascii.eqb Bool.eqb andb].
  unfold bind, get, when, modify, emit, ret. cbv zeta.
  destruct (match _audio_buffer c with [] => false | _ :: _ => true end
            && on_audio_delta c); reflexivity.
Qed.

(** C3.  With a playback callback supplied, for a response made of a
    [response.created] event, audio deltas that decode to chunks of N bytes
    in total, and a [response.done] event, the chunks handed to the playback
    callback, put end to end, are exactly the decoded bytes in the order
    received: N bytes, none dropped, none duplicated, whatever N is (below
    the 3200-byte threshold the remainder leaves with [response.done]). *)
Theorem audio_bytes_conserved
  (created done : value) (t0 t1 : float)
  (deltas : list (value * float)) (chunks : list bytes)
  (c : RealtimeClient) :
  on_audio_delta c = true ->
  is_response_created created ->
  Forall2 (fun d chunk => is_audio_delta b64decode (fst d) chunk)
          deltas chunks ->
  event_type_is done "response.done" ->
  let r := handle_messages json_loads b64decode py_str import_rag_pipeline
             ((created, t0) :: deltas ++ [(done, t1)])%list c in
  outcome r = Ok tt /\
  List.concat (played (effects r)) = List.concat chunks /\
  total_bytes (played (effects r)) = total_bytes chunks /\
  _audio_buffer (final r) = [].
Proof.
  intros Hcb Hcreated Hdeltas Hdone r.
  assert (Hrun : exists c' out,
             r = (Ok tt, c', out) /\
             List.concat (played out) = List.concat chunks /\
             _audio_buffer c' = []).
  { subst r.
    destruct (response_created_step created t0 c Hcreated) as [id Hstep].
    unfold handle_messages. cbn [message_loop]. unfold bind at 1.
    rewrite Hstep, loop_app. unfold bind at 1.
    pose proof (audio_deltas_run deltas chunks Hdeltas
                  (set_audio_buffer []
                     (set_is_responding true (set_current_response_id id c)))
                  Hcb) as Hrun.
    cbv zeta in Hrun.
    destruct (loop deltas
                (set_audio_buffer []
                   (set_is_responding true (set_current_response_id id c))))
      as [[r1 c1] out1].
    unfold outcome, final, effects in Hrun. cbn [fst snd] in Hrun.
    cbn [_audio_buffer set_audio_buffer app] in Hrun.
    destruct Hrun as (Hr1 & Hcb1 & Hbytes & _). subst r1.
    cbn [message_loop]. unfold bind at 1.
    rewrite (response_done_step done t1 c1 Hdone). cbv zeta.
    rewrite Hcb1, andb_true_r. unfold ret. cbn [app].
    eexists. eexists. split; [reflexivity|]. split.
    - rewrite app_nil_r, played_app, concat_app, <- Hbytes.
      destruct (_audio_buffer c1); cbn; rewrite ?app_nil_r; reflexivity.
    - destruct (_audio_buffer c1) eqn:Hb; cbn; [exact Hb | reflexivity]. }
  destruct Hrun as (c' & out & Hr & Hbytes & Hbuf).
  rewrite Hr. unfold outcome, final, effects, total_bytes. cbn [fst snd].
  rewrite Hbytes. repeat split. assumption.
Qed.

(** Over a run of audio deltas with a playback callback supplied, each
    release of the buffer on a delta adds half the size of
    the released chunk, rounded down, to the played sample count: the count
    has grown by the sum of these halves, which is half the total number of
    bytes released whenever every released chunk has an even size. *)
Theorem sample_count_after_delta_releases
  (deltas : list (value * float)) (chunks : list bytes)
  (c : RealtimeClient) :
  on_audio_delta c = true ->
  Forall2 (fun d chunk => is_audio_delta b64decode (fst d) chunk)
          deltas chunks ->
  let r := handle_messages json_loads b64decode py_str import_rag_pipeline
             deltas c in
  outcome r = Ok tt /\
  _current_audio_sample_count (final r) =
    _current_audio_sample_count c + samples_of (played (effects r)) /\
  (Forall (fun chunk => Z.even (len chunk) = true) (played (effects r)) ->
   _current_audio_sample_count (final r) =
     _current_audio_sample_count c + total_bytes (played (effects r)) / 2).
Proof.
  intros Hcb Hdeltas r. subst r.
  pose proof (audio_deltas_run deltas chunks Hdeltas c Hcb) as Hrun.
  cbv zeta in Hrun. unfold handle_messages.
  destruct (loop deltas c) as [[r1 c1] out1].
  unfold outcome, final, effects in *. cbn [fst snd] in *.
  destruct Hrun as (Hr1 & _ & _ & Hcount). subst r1. cbn [fst snd].
  repeat split; [assumption|].
  intros Heven. rewrite Hcount, (samples_of_even _ Heven). reflexivity.
Qed.

(** ** The tool-call dispatcher *)

Lemma handle_function_call (event : value) (now : float)
  (c : RealtimeClient) (call_id name arguments : value) :
  is_function_call event call_id name arguments ->
  handle event now c =
  (tool_arguments <- lift (json_loads arguments) ;;
   call_tool py_str import_rag_pipeline call_id name tool_arguments) c.
Proof.
  intros (Htype & Hid & Hname & Hargs).
  unfold handle_event. rewrite Htype, bind_lift_ok.
  cbn [eq_str String.eqb Ascii.eqb Bool.eqb andb].
  rewrite Hid, bind_lift_ok, Hname, bind_lift_ok, Hargs, bind_lift_ok.
  reflexivity.
Qed.

(** A tool call whose arguments parse and whose retrieval succeeds. *)
Lemma tool_call_step (event : value) (now : float) (c : RealtimeClient)
  (call_id name arguments tool_arguments query tool_result : value)
  (rag : value -> result value) :
  is_function_call event call_id name arguments ->
  json_loads arguments = Ok tool_arguments ->
  import_rag_pipeline = Ok rag ->
  subscript tool_arguments "query" = Ok query ->
  rag query = Ok tool_result ->
  handle event now c =
  (Ok tt, c,
   [WsSend (function_call_output call_id (py_str tool_result));
    WsSend response_create_message]).
Proof.
  intros Hcall Hparse Himport Hquery Hrag.
  rewrite (handle_function_call _ _ _ _ _ _ Hcall).
  rewrite Hparse, bind_lift_ok. unfold call_tool.
  rewrite Himport, bind_lift_ok, Hquery, bind_lift_ok, Hrag, bind_lift_ok.
  reflexivity.
Qed.

(** What [call_tool] is written to do, given a retrieval module that
    loads: a [response.function_call_arguments.done] event with call id
    ["c1"], name ["lookup"] and arguments [{"query":"X"}], when the retrieval
    function returns ["ANSWER"], writes exactly two messages to the socket:
    one function-call output with call id ["c1"] and output ["ANSWER"], then
    one [response.create]. *)
Theorem tool_call_sends_output_then_response_create
  (event : value) (now : float) (c : RealtimeClient)
  (rag : value -> result value) :
  is_function_call event (VStr "c1") (VStr "lookup") (VStr Sample.query_X) ->
  json_loads (VStr Sample.query_X) = Ok (VDict [("query", VStr "X")]) ->
  import_rag_pipeline = Ok rag ->
  rag (VStr "X") = Ok (VStr "ANSWER") ->
  py_str (VStr "ANSWER") = "ANSWER" ->
  let r := handle event now c in
  outcome r = Ok tt /\
  sent (effects r) =
    [function_call_output (VStr "c1") "ANSWER"; response_create_message] /\
  effects r =
    [WsSend (function_call_output (VStr "c1") "ANSWER");
     WsSend response_create_message].
Proof.
  intros Hcall Hparse Himport Hrag Hstr r. subst r.
  rewrite (tool_call_step event now c _ _ _ _ (VStr "X") _ rag
             Hcall Hparse Himport eq_refl Hrag).
  rewrite Hstr. repeat split.
Qed.

End ClientFacts.

(** ** The theorems at concrete messages *)

(** An interruption two seconds into the item [item_1]. *)
Lemma interruption_sends_cancel_then_truncate_witness :
  event_type_is Sample.speech_started "input_audio_buffer.speech_started" /\
  _is_responding Sample.responding = true /\
  sent (effects (Sample.step Sample.speech_started 5%float Sample.responding))
  = [cancel_message; truncate_message (VStr "item_1") 0 2000].
Proof.
  split; [reflexivity | split; [reflexivity |]].
  exact (proj1 (proj2
    (interruption_sends_cancel_then_truncate
       Sample.json_loads Sample.b64decode Sample.py_str
       (Ok Sample.rag_pipeline) Sample.speech_started 5%float
       Sample.responding eq_refl eq_refl))).
Defined.

(** C1, as stated, fails: a [speech_started] event that arrives after
    [response.created] and before any [response.output_item.added] finds a
    response active and no current item; only [response.cancel] is sent and
    no [conversation.item.truncate] follows. *)
Lemma interruption_before_first_item_sends_no_truncate :
  let c1 := final (Sample.run [(Sample.response_created "resp_1", 1%float)]
                     (__init__ true true true [])) in
  _is_responding c1 = true /\
  sent (effects (Sample.run [(Sample.speech_started, 2%float)] c1))
  = [cancel_message].
Proof. vm_compute. split; reflexivity. Qed.

(** Speech detected on a client that has just been created. *)
Lemma speech_started_while_idle_is_noop_witness :
  event_type_is Sample.speech_started "input_audio_buffer.speech_started" /\
  _is_responding (__init__ true true true []) = false /\
  sent (effects (Sample.step Sample.speech_started 5%float
                   (__init__ true true true []))) = [] /\
  final (Sample.step Sample.speech_started 5%float
           (__init__ true true true [])) = __init__ true true true [].
Proof.
  split; [reflexivity | split; [reflexivity |]].
  exact (proj2
    (speech_started_while_idle_is_noop
       Sample.json_loads Sample.b64decode Sample.py_str
       (Ok Sample.rag_pipeline) Sample.speech_started 5%float
       (__init__ true true true []) eq_refl eq_refl)).
Defined.

(** The callback is called although no response is active. *)
Lemma on_interrupt_called_on_every_speech_started_witness :
  event_type_is Sample.speech_started "input_audio_buffer.speech_started" /\
  on_interrupt (__init__ true true true []) = true /\
  interrupts (effects (Sample.step Sample.speech_started 5%float
                         (__init__ true true true []))) = 1%nat.
Proof.
  split; [reflexivity | split; [reflexivity |]].
  exact (proj1 (proj2
    (on_interrupt_called_on_every_speech_started
       Sample.json_loads Sample.b64decode Sample.py_str
       (Ok Sample.rag_pipeline) Sample.speech_started 5%float
       (__init__ true true true []) eq_refl eq_refl))).
Defined.

(** The decoded chunks of the sample deltas. *)
Lemma decode_zeros_1000 :
  is_audio_delta Sample.b64decode (Sample.audio_delta Sample.zeros_1000)
    (repeat x00 1000).
Proof.
  split; [reflexivity |].
  exists (VStr Sample.zeros_1000). split; [reflexivity |].
  vm_compute. reflexivity.
Defined.

Lemma decode_zeros_1500 :
  is_audio_delta Sample.b64decode (Sample.audio_delta Sample.zeros_1500)
    (repeat x00 1500).
Proof.
  split; [reflexivity |].
  exists (VStr Sample.zeros_1500). split; [reflexivity |].
  vm_compute. reflexivity.
Defined.

(** A response of 1000 bytes, below the threshold. *)
Lemma audio_bytes_conserved_witness :
  let c := __init__ false true false [] in
  let deltas := [(Sample.audio_delta Sample.zeros_1000, 10%float)] in
  on_audio_delta c = true /\
  is_response_created (Sample.response_created "resp_1") /\
  Forall2 (fun d chunk => is_audio_delta Sample.b64decode (fst d) chunk)
          deltas [repeat x00 1000] /\
  event_type_is Sample.response_done "response.done" /\
  total_bytes
    (played (effects
       (Sample.run ((Sample.response_created "resp_1", 9%float)
                    :: deltas ++ [(Sample.response_done, 11%float)])%list c)))
  = total_bytes [repeat x00 1000].
Proof.
  intros c deltas.
  assert (Hcreated : is_response_created (Sample.response_created "resp_1")).
  { split; [reflexivity |]. exists [("id", VStr "resp_1")]. reflexivity. }
  assert (Hdeltas :
            Forall2 (fun d chunk =>
                       is_audio_delta Sample.b64decode (fst d) chunk)
                    deltas [repeat x00 1000]).
  { constructor; [exact decode_zeros_1000 | constructor]. }
  split; [reflexivity |].
  split; [exact Hcreated |].
  split; [exact Hdeltas |].
  split; [reflexivity |].
  exact (proj1 (proj2 (proj2
    (audio_bytes_conserved
       Sample.json_loads Sample.b64decode Sample.py_str
       (Ok Sample.rag_pipeline)
       (Sample.response_created "resp_1") Sample.response_done
       9%float 11%float deltas [repeat x00 1000] c
       eq_refl Hcreated Hdeltas eq_refl)))).
Defined.

(** C2.  The code at a second response: [response.created] records the
    new response id and empties the audio buffer, and the played sample
    count, 1800 after the first response, is still 1800; an interruption
    right after the first item of the second response is announced then
    truncates that item at 75 ms although none of it was played. *)
Theorem response_created_keeps_sample_count :
  let r1 := Sample.run [(Sample.response_created "resp_1", 10%float);
                        (Sample.output_item_added "item_1", 10%float);
                        (Sample.audio_delta Sample.zeros_3600, 10%float);
                        (Sample.response_done, 11%float)]
              (__init__ false true true []) in
  let r2 := Sample.run [(Sample.response_created "resp_2", 12%float);
                        (Sample.output_item_added "item_2", 12%float)]
              (final r1) in
  let r3 := Sample.run [(Sample.speech_started, 13%float)] (final r2) in
  _current_audio_sample_count (final r1) = 1800 /\
  _current_response_id (final r2) = VStr "resp_2" /\
  _audio_buffer (final r2) = [] /\
  played (effects r2) = [] /\
  _current_audio_sample_count (final r2) = 1800 /\
  sent (effects r3) = [cancel_message; truncate_message (VStr "item_2") 0 75].
Proof. vm_compute. repeat split. Qed.

(** C6, as stated, fails: on arguments that are not JSON the loop ends with
    the exception; no function-call output is written to the socket, and the
    message that follows is never handled. *)
Lemma malformed_tool_arguments_end_the_loop :
  let r := Sample.run
             [(Sample.function_call "c1" "lookup" "not json", 5%float);
              (Sample.speech_started, 6%float)]
             (__init__ true true true []) in
  outcome r = Raise JSONDecodeError /\
  sent (effects r) = [] /\
  interrupts (effects r) = 0%nat.
Proof. vm_compute. repeat split. Qed.

(** * Properties of the voice-activity gate *)

Section VadFacts.

Import Vad.

Lemma silent_frames_keep_the_utterance (frames : list (bytes * float)) :
  forall (g : gate) (started : float),
  is_speaking g = true ->
  silence_start g = Some started ->
  Forall (short_silence started) frames ->
  record_and_stream_audio frames g =
  ({| is_speaking := true;
      is_processing := is_processing g;
      is_user_speaking := is_user_speaking g;
      silence_start := Some started;
      audio_buffer := (audio_buffer g ++ map fst frames)%list |}, []).
Proof.
  induction frames as [|[data now] frames IH]; intros g started Hsp Hst Hall.
  - destruct g. cbn in *. subst. rewrite app_nil_r. reflexivity.
  - inversion Hall as [|? ? [Hsilent Hshort] Hrest]; subst.
    cbn [fst snd] in *. cbn [record_and_stream_audio].
    unfold frame_step, classify. rewrite Hsilent, Hsp, Hst, Hshort, Hsp.
    rewrite (IH (mkGate true (is_processing g) (is_user_speaking g)
                   (silence_start g) (audio_buffer g ++ [data])%list)
               started eq_refl Hst Hrest).
    cbn. rewrite <- app_assoc. reflexivity.
Qed.

(** C8 (as amended).  In the local gate, a frame that is not silent opens
    an utterance at once when none is open, and while the user is speaking
    it restarts the timing of silence.  A run of silent frames that follows
    it, and has not lasted more than the hysteresis duration (0.3 s) since
    its first frame, leaves the utterance open, whatever pauses came
    before, and its frames join the utterance buffer.  A silent frame that
    comes more than 0.3 s after the silence began ends the utterance and
    clears the utterance buffer, the accumulated frames being handed off for
    sending only if no earlier utterance is still being processed
    ([is_processing] false) and dropped otherwise. *)
Theorem vad_gate_hysteresis :
  (forall (g : gate) (data : bytes) (now : float),
      is_silent data = Ok false ->
      frame_step data now g =
      Ok ({| is_speaking := true;
             is_processing := is_processing g;
             is_user_speaking :=
               if is_speaking g then is_user_speaking g else true;
             silence_start := None;
             audio_buffer := (audio_buffer g ++ [data])%list |},
          if is_speaking g then []
          else [LogInfo "Speech detected, listening..."])) /\
  (forall (g : gate) (data : bytes) (now : float)
          (frames : list (bytes * float)),
      is_speaking g = true ->
      silence_start g = None ->
      is_silent data = Ok true ->
      Forall (short_silence now) frames ->
      record_and_stream_audio ((data, now) :: frames) g =
      ({| is_speaking := true;
          is_processing := is_processing g;
          is_user_speaking := is_user_speaking g;
          silence_start := Some now;
          audio_buffer := (audio_buffer g ++ data :: map fst frames)%list |},
       [])) /\
  (forall (g : gate) (speech data : bytes) (resumed now : float)
          (frames : list (bytes * float)),
      is_speaking g = true ->
      is_silent speech = Ok false ->
      is_silent data = Ok true ->
      Forall (short_silence now) frames ->
      record_and_stream_audio
        ((speech, resumed) :: (data, now) :: frames) g =
      ({| is_speaking := true;
          is_processing := is_processing g;
          is_user_speaking := is_user_speaking g;
          silence_start := Some now;
          audio_buffer :=
            (audio_buffer g ++ speech :: data :: map fst frames)%list |},
       [])) /\
  (forall (g : gate) (data : bytes) (now started : float),
      is_speaking g = true ->
      silence_start g = Some started ->
      is_silent data = Ok true ->
      PrimFloat.ltb SILENCE_DURATION (PrimFloat.sub now started) = true ->
      frame_step data now g =
      Ok ({| is_speaking := false;
             is_processing := true;
             is_user_speaking := false;
             silence_start := None;
             audio_buffer := [] |},
          if is_processing g then []
          else [StartProcessAudio (audio_buffer g)])).
Proof.
  assert (Hspeech : forall (g : gate) (data : bytes) (now : float),
             is_silent data = Ok false ->
             frame_step data now g =
             Ok ({| is_speaking := true;
                    is_processing := is_processing g;
                    is_user_speaking :=
                      if is_speaking g then is_user_speaking g else true;
                    silence_start := None;
                    audio_buffer := (audio_buffer g ++ [data])%list |},
                 if is_speaking g then []
                 else [LogInfo "Speech detected, listening..."])).
  { intros g data now Hsilent. unfold frame_step, classify.
    rewrite Hsilent. destruct (is_speaking g); reflexivity. }
  assert (Hkeep : forall (g : gate) (data : bytes) (now : float)
                         (frames : list (bytes * float)),
             is_speaking g = true ->
             silence_start g = None ->
             is_silent data = Ok true ->
             Forall (short_silence now) frames ->
             record_and_stream_audio ((data, now) :: frames) g =
             ({| is_speaking := true;
                 is_processing := is_processing g;
                 is_user_speaking := is_user_speaking g;
                 silence_start := Some now;
                 audio_buffer :=
                   (audio_buffer g ++ data :: map fst frames)%list |},
              [])).
  { intros g data now frames Hsp Hst Hsilent Hall.
    cbn [record_and_stream_audio].
    unfold frame_step, classify. rewrite Hsilent, Hsp, Hst.
    cbn [is_speaking is_processing is_user_speaking silence_start
         audio_buffer].
    rewrite (silent_frames_keep_the_utterance frames
               (mkGate true (is_processing g) (is_user_speaking g)
                  (Some now) (audio_buffer g ++ [data])%list)
               now eq_refl eq_refl Hall).
    cbn. rewrite <- app_assoc. reflexivity. }
  split; [exact Hspeech | split; [exact Hkeep | split]].
  - intros g speech data resumed now frames Hsp Hspeak Hsilent Hall.
    pose proof (Hspeech g speech resumed Hspeak) as Hfirst.
    rewrite Hsp in Hfirst.
    pose proof (Hkeep (mkGate true (is_processing g) (is_user_speaking g)
                         None (audio_buffer g ++ [speech])%list)
                  data now frames eq_refl eq_refl Hsilent Hall) as Hpause.
    cbn [is_processing is_user_speaking audio_buffer] in Hpause.
    change (record_and_stream_audio
              ((speech, resumed) :: (data, now) :: frames) g)
      with (match frame_step speech resumed g with
            | Ok (g1, out1) =>
                let '(g2, out2) :=
                  record_and_stream_audio ((data, now) :: frames) g1 in
                (g2, (out1 ++ out2)%list)
            | Raise e => (g, [LogInfo "Error in record_and_stream_audio"])
            end).
    rewrite Hfirst, Hpause. cbn [app]. rewrite <- app_assoc. reflexivity.
  - intros g data now started Hsp Hst Hsilent Hlong.
    unfold frame_step, classify. rewrite Hsilent, Hsp, Hst, Hlong.
    destruct (is_processing g); reflexivity.
Qed.

End VadFacts.

(** One utterance with two pauses: speech at 1 s, silence from 1.1 s, still
    open at 1.3 s; speech again at 1.35 s, silence from 1.45 s, still open
    at 1.7 s, which is 0.6 s after the first pause began; ended and handed
    off at 1.8 s. *)
Lemma vad_gate_hysteresis_witness :
  let speaking := Vad.mkGate true false true None [Vad.loud] in
  let paused :=
    Vad.mkGate true false true (Some 1.1%float)
      [Vad.loud; Vad.quiet; Vad.quiet] in
  let paused_again :=
    Vad.mkGate true false true (Some 1.45%float)
      [Vad.loud; Vad.quiet; Vad.quiet; Vad.loud; Vad.quiet; Vad.quiet] in
  (Vad.is_silent Vad.quiet = Ok true /\
   Vad.is_silent Vad.loud = Ok false) /\
  Vad.frame_step Vad.loud 1%float Vad.listening =
    Ok (speaking, [Vad.LogInfo "Speech detected, listening..."]) /\
  (Forall (Vad.short_silence 1.1%float) [(Vad.quiet, 1.3%float)] /\
   Vad.record_and_stream_audio
     [(Vad.quiet, 1.1%float); (Vad.quiet, 1.3%float)] speaking =
   (paused, [])) /\
  Vad.frame_step Vad.loud 1.35%float paused =
    Ok (Vad.mkGate true false true None
          [Vad.loud; Vad.quiet; Vad.quiet; Vad.loud], []) /\
  (Forall (Vad.short_silence 1.45%float) [(Vad.quiet, 1.7%float)] /\
   PrimFloat.ltb Vad.SILENCE_DURATION
     (PrimFloat.sub 1.7%float 1.1%float) = true /\
   Vad.record_and_stream_audio
     [(Vad.loud, 1.35%float); (Vad.quiet, 1.45%float);
      (Vad.quiet, 1.7%float)] paused =
   (paused_again, [])) /\
  (PrimFloat.ltb Vad.SILENCE_DURATION
     (PrimFloat.sub 1.8%float 1.45%float) = true /\
   Vad.frame_step Vad.quiet 1.8%float paused_again =
   Ok (Vad.mkGate false true false None [],
       [Vad.StartProcessAudio
          [Vad.loud; Vad.quiet; Vad.quiet;
           Vad.loud; Vad.quiet; Vad.quiet]])).
Proof.
  intros speaking paused paused_again.
  assert (Hquiet : Vad.is_silent Vad.quiet = Ok true)
    by (vm_compute; reflexivity).
  assert (Hloud : Vad.is_silent Vad.loud = Ok false)
    by (vm_compute; reflexivity).
  assert (Hshort : Forall (Vad.short_silence 1.1%float)
                     [(Vad.quiet, 1.3%float)]).
  { constructor; [split; [exact Hquiet | vm_compute; reflexivity]
                 | constructor]. }
  assert (Hshort' : Forall (Vad.short_silence 1.45%float)
                      [(Vad.quiet, 1.7%float)]).
  { constructor; [split; [exact Hquiet | vm_compute; reflexivity]
                 | constructor]. }
  assert (Hlate : PrimFloat.ltb Vad.SILENCE_DURATION
                    (PrimFloat.sub 1.7%float 1.1%float) = true)
    by (vm_compute; reflexivity).
  assert (Hlong : PrimFloat.ltb Vad.SILENCE_DURATION
                    (PrimFloat.sub 1.8%float 1.45%float) = true)
    by (vm_compute; reflexivity).
  destruct vad_gate_hysteresis as (Hspeech & Hkeep & Hresume & Hend).
  split; [split; assumption |].
  split; [exact (Hspeech Vad.listening Vad.loud 1%float Hloud) |].
  split.
  { split; [exact Hshort |].
    exact (Hkeep speaking Vad.quiet 1.1%float [(Vad.quiet, 1.3%float)]
             eq_refl eq_refl Hquiet Hshort). }
  split; [exact (Hspeech paused Vad.loud 1.35%float Hloud) |].
  split.
  { split; [exact Hshort' |]. split; [exact Hlate |].
    exact (Hresume paused Vad.loud Vad.quiet 1.35%float 1.45%float
             [(Vad.quiet, 1.7%float)] eq_refl Hloud Hquiet Hshort'). }
  split; [exact Hlong |].
  exact (Hend paused_again Vad.quiet 1.8%float 1.45%float
           eq_refl eq_refl Hquiet Hlong).
Defined.

(** C8, as stated, fails: when a second utterance ends while the first is
    still being processed, its frames are dropped instead of being handed
    off; only the first utterance is ever given to the sender. *)
Lemma second_utterance_is_dropped_while_processing :
  let frames :=
    [(Vad.loud, 1%float); (Vad.quiet, 1.1%float); (Vad.quiet, 1.5%float);
     (Vad.loud, 2%float); (Vad.quiet, 2.1%float); (Vad.quiet, 2.5%float)] in
  Vad.record_and_stream_audio frames Vad.listening =
  (Vad.mkGate false true false None [],
   [Vad.LogInfo "Speech detected, listening...";
    Vad.StartProcessAudio [Vad.loud; Vad.quiet];
    Vad.LogInfo "Speech detected, listening..."]).
Proof. vm_compute. reflexivity. Qed.

(** * Further properties of the client *)

(** Case analysis on everything a handler inspects. *)
Ltac split_match :=
  match goal with
  | |- context [match ?x with _ => _ end] =>
      lazymatch x with
      | context [match _ with _ => _ end] => fail
      | _ => destruct x eqn:?
      end
  | |- context [if ?x then _ else _] =>
      lazymatch x with
      | context [if _ then _ else _] => fail
      | context [match _ with _ => _ end] => fail
      | _ => destruct x eqn:?
      end
  end.

Ltac run_handler :=
  unfold handle_event, on_audio_delta_event, call_tool, handle_interruption,
    truncate_response, cancel_response, send_function_result,
    create_response, ws_send, when, bind, lift, emit, get, modify, ret;
  repeat (split_match; cbn [fst snd]).

Section ClientInvariants.

Variable json_loads : value -> result value.
Variable b64decode : value -> result bytes.
Variable py_str : value -> string.
Variable import_rag_pipeline : result (value -> result value).

Local Abbreviation handle :=
  (handle_event json_loads b64decode py_str import_rag_pipeline).
Local Abbreviation loop :=
  (message_loop json_loads b64decode py_str import_rag_pipeline).
Local Abbreviation run :=
  (handle_messages json_loads b64decode py_str import_rag_pipeline).

Lemma released_chunk_nonempty (buf : bytes) (late : bool) :
  (_min_audio_chunk_size <=? len buf) && late = true -> buf <> [].
Proof.
  intros H Hnil. subst buf. cbn in H. discriminate.
Qed.

Lemma released_chunk_large (buf : bytes) (late : bool) :
  (_min_audio_chunk_size <=? len buf) && late = true -> 3200 <= len buf.
Proof.
  intros H. apply andb_prop in H. destruct H as [H _].
  apply Z.leb_le in H. exact H.
Qed.

Lemma eq_str_true (v : value) (s : string) :
  eq_str v s = true -> v = VStr s.
Proof.
  destruct v; cbn; try discriminate.
  intros H. apply String.eqb_eq in H. congruence.
Qed.

Lemma half_nonneg (buf : bytes) : 0 <= len buf / 2.
Proof. apply Z.div_pos; [apply len_nonneg | lia]. Qed.

(** What one message can and cannot do to the client. *)
Lemma handle_event_facts (event : value) (now : float) (c : RealtimeClient) :
  let r := handle event now c in
  same_configuration c (final r) /\
  _current_audio_sample_count c <= _current_audio_sample_count (final r) /\
  (idle_consistent c -> idle_consistent (final r)) /\
  Forall (fun chunk : bytes => chunk <> []) (played (effects r)) /\
  (on_audio_delta c = false ->
   played (effects r) = [] /\
   _current_audio_sample_count (final r) = _current_audio_sample_count c) /\
  (~ event_type_is event "response.done" ->
   Forall (fun chunk : bytes => 3200 <= len chunk) (played (effects r))).
Proof.
  unfold same_configuration, idle_consistent, event_type_is, final, effects.
  cbv zeta. run_handler.
  all: cbn [fst snd played app
              on_text_delta on_audio_delta on_interrupt extra_event_handlers
              _current_response_id _current_item_id _is_responding
              _audio_buffer _last_audio_time _current_content_index
              _current_audio_sample_count
              set_current_response_id set_current_item_id set_is_responding
              set_audio_buffer set_last_audio_time
              set_current_audio_sample_count].
  all: repeat match goal with
         | |- _ /\ _ => split
         end.
  all: intros.
  all: try solve
         [ reflexivity | assumption | congruence | discriminate | auto
         | lia
         | match goal with
           | |- _ <= _ + len ?buf / 2 => pose proof (half_nonneg buf); lia
           end
         | constructor
         | constructor; [discriminate | constructor]
         | constructor;
           [eapply released_chunk_nonempty; eassumption | constructor]
         | constructor;
           [eapply released_chunk_large; eassumption | constructor]
         | match goal with
           | Hno : on_audio_delta ?c0 = false,
             Hyes : true && on_audio_delta ?c0 = true |- _ =>
               rewrite Hno in Hyes; discriminate
           | Hdone : eq_str ?a "response.done" = true,
             Hnot : ?t <> Ok (VStr "response.done") |- _ =>
               apply eq_str_true in Hdone; subst a; contradiction
           end ].
Qed.

Lemma message_loop_facts (messages : list (value * float)) :
  forall c : RealtimeClient,
  let r := loop messages c in
  same_configuration c (final r) /\
  _current_audio_sample_count c <= _current_audio_sample_count (final r) /\
  (idle_consistent c -> idle_consistent (final r)) /\
  Forall (fun chunk : bytes => chunk <> []) (played (effects r)) /\
  (on_audio_delta c = false ->
   played (effects r) = [] /\
   _current_audio_sample_count (final r) = _current_audio_sample_count c) /\
  (Forall (fun m => ~ event_type_is (fst m) "response.done") messages ->
   Forall (fun chunk : bytes => 3200 <= len chunk) (played (effects r))).
Proof.
  induction messages as [|[event now] messages IH]; intros c; cbv zeta.
  - cbn. unfold same_configuration. repeat split; auto; try lia.
  - pose proof (handle_event_facts event now c) as Hstep.
    cbv zeta in Hstep. cbn [message_loop]. unfold bind.
    destruct (handle event now c) as [[[[]|e] c1] out1];
      unfold final, effects in Hstep; cbn [fst snd] in Hstep;
      destruct Hstep as (Hconf & Hcount & Hidle & Hne & Hnocb & Hbig).
    + specialize (IH c1). cbv zeta in IH.
      destruct (loop messages c1) as [[r2 c2] out2].
      unfold final, effects in *. cbn [fst snd] in *.
      destruct IH as (Hconf2 & Hcount2 & Hidle2 & Hne2 & Hnocb2 & Hbig2).
      unfold same_configuration in *.
      destruct Hconf as (H1 & H2 & H3 & H4 & H5).
      destruct Hconf2 as (H1' & H2' & H3' & H4' & H5').
      repeat split; try congruence; try lia; auto.
      * rewrite played_app. apply Forall_app. split; assumption.
      * rewrite played_app. destruct (Hnocb H) as [-> _].
        apply Hnocb2. congruence.
      * destruct (Hnocb H) as [_ <-]. apply Hnocb2. congruence.
      * intros Hall. inversion Hall; subst. cbn [fst] in *.
        rewrite played_app. apply Forall_app. split; auto.
    + unfold final, effects. cbn [fst snd].
      repeat split; try apply Hconf; auto; try apply Hnocb; auto.
      intros Hall. inversion Hall; subst. auto.
Qed.

Lemma run_final (messages : list (value * float)) (c : RealtimeClient) :
  final (run messages c) = final (loop messages c).
Proof.
  unfold handle_messages.
  destruct (loop messages c) as [[[a|e] c1] out1]; reflexivity.
Qed.

Lemma run_played (messages : list (value * float)) (c : RealtimeClient) :
  played (effects (run messages c)) = played (effects (loop messages c)).
Proof.
  unfold handle_messages.
  destruct (loop messages c) as [[[a|e] c1] out1]; [reflexivity |].
  unfold effects. cbn [snd]. rewrite played_app. cbn. apply app_nil_r.
Qed.

(** X1.  No sequence of messages changes the callbacks, the extra handlers
    or the content index of the client: [_current_content_index] keeps the
    value [__init__] gave it, whatever arrives. *)
Theorem configuration_and_content_index_never_change
  (messages : list (value * float)) (c : RealtimeClient) :
  same_configuration c (final (run messages c)).
Proof.
  rewrite run_final. apply (message_loop_facts messages c).
Qed.

(** X2.  The played sample count never decreases: no message resets it,
    and without a playback callback it never moves. *)
Theorem sample_count_never_decreases
  (messages : list (value * float)) (c : RealtimeClient) :
  _current_audio_sample_count c
  <= _current_audio_sample_count (final (run messages c)) /\
  (on_audio_delta c = false ->
   _current_audio_sample_count (final (run messages c))
   = _current_audio_sample_count c).
Proof.
  rewrite run_final.
  destruct (message_loop_facts messages c) as (_ & Hcount & _ & _ & Hnocb & _).
  split; [exact Hcount |]. intros H. apply (Hnocb H).
Qed.

(** X3.  Whenever no response is active the client holds no response id:
    this holds of a new client and is kept by every sequence of messages,
    also one that ends in an exception. *)
Theorem idle_client_holds_no_response_id
  (messages : list (value * float)) (c : RealtimeClient) :
  idle_consistent c ->
  idle_consistent (final (run messages c)).
Proof.
  rewrite run_final.
  destruct (message_loop_facts messages c) as (_ & _ & Hidle & _).
  exact Hidle.
Qed.

(** X4.  The playback callback is never called with an empty chunk, and
    never called at all when none was supplied. *)
Theorem playback_never_gets_an_empty_chunk
  (messages : list (value * float)) (c : RealtimeClient) :
  Forall (fun chunk : bytes => chunk <> [])
         (played (effects (run messages c))) /\
  (on_audio_delta c = false -> played (effects (run messages c)) = []).
Proof.
  rewrite run_played.
  destruct (message_loop_facts messages c) as (_ & _ & _ & Hne & Hnocb & _).
  split; [exact Hne |]. intros H. apply (Hnocb H).
Qed.

(** X5.  Only [response.done] can hand the playback callback less than
    3200 bytes: over messages none of which is a [response.done], every
    chunk played has at least 3200 bytes. *)
Theorem only_response_done_plays_short_chunks
  (messages : list (value * float)) (c : RealtimeClient) :
  Forall (fun m => ~ event_type_is (fst m) "response.done") messages ->
  Forall (fun chunk : bytes => 3200 <= len chunk)
         (played (effects (run messages c))).
Proof.
  rewrite run_played.
  destruct (message_loop_facts messages c) as (_ & _ & _ & _ & _ & Hbig).
  exact Hbig.
Qed.

End ClientInvariants.

(** * The pacer's timer, the flush and the tool call *)

Section PacerAndTools.

Variable json_loads : value -> result value.
Variable b64decode : value -> result bytes.
Variable py_str : value -> string.
Variable import_rag_pipeline : result (value -> result value).

Local Abbreviation handle :=
  (handle_event json_loads b64decode py_str import_rag_pipeline).
Local Abbreviation loop :=
  (message_loop json_loads b64decode py_str import_rag_pipeline).

(** Only an audio delta can move [_last_audio_time]. *)
Lemma last_audio_time_moves_only_on_audio_delta
  (event : value) (now : float) (c : RealtimeClient) :
  ~ event_type_is event "response.audio.delta" ->
  _last_audio_time (final (handle event now c)) = _last_audio_time c.
Proof.
  unfold event_type_is, final. intros Hnot. run_handler.
  all: cbn [fst snd _last_audio_time
              set_current_response_id set_current_item_id set_is_responding
              set_audio_buffer set_last_audio_time
              set_current_audio_sample_count].
  all: try reflexivity.
  all: match goal with
       | Hdelta : eq_str ?a "response.audio.delta" = true |- _ =>
           apply eq_str_true in Hdelta; subst a; contradiction
       end.
Qed.

(** C5 (as amended).  With a playback callback supplied, each
    [response.audio.delta] event appends the decoded bytes to the audio
    buffer; the buffer is then handed to the playback callback as one chunk
    and emptied exactly when it holds at least 3200 bytes and the clock
    reading minus [_last_audio_time] is at least
    (buffered bytes / 48000) * 0.95 seconds, and is kept otherwise.
    [_last_audio_time] is the time of the last release made on an audio
    delta: it is 0 in a new client, such a release sets it to the clock
    reading, and nothing else changes it.  In particular deltas of 1000,
    1000 and 1500 bytes on an empty buffer release nothing on the first two;
    on the third all 3500 bytes leave as one chunk and the played sample
    count, 0 before, becomes 1750 if the timing condition holds, and nothing
    is released if it does not. *)
Theorem pacer_releases_when_both_conditions_hold :
  (forall (event : value) (now : float) (c : RealtimeClient) (chunk : bytes),
      on_audio_delta c = true ->
      is_audio_delta b64decode event chunk ->
      let buf := (_audio_buffer c ++ chunk)%list in
      let due :=
        (3200 <=? len buf) &&
        PrimFloat.leb
          (PrimFloat.mul (PrimFloat.div (float_of_Z (len buf)) 48000%float)
                         0.95%float)
          (PrimFloat.sub now (_last_audio_time c)) in
      let r := handle event now c in
      outcome r = Ok tt /\
      if due
      then played (effects r) = [buf] /\
           _audio_buffer (final r) = [] /\
           _current_audio_sample_count (final r) =
             _current_audio_sample_count c + len buf / 2 /\
           _last_audio_time (final r) = now
      else played (effects r) = [] /\
           _audio_buffer (final r) = buf /\
           _current_audio_sample_count (final r) =
             _current_audio_sample_count c /\
           _last_audio_time (final r) = _last_audio_time c) /\
  (forall text audio interrupt extra,
      _last_audio_time (__init__ text audio interrupt extra) = 0%float) /\
  (forall (event : value) (now : float) (c : RealtimeClient),
      ~ event_type_is event "response.audio.delta" ->
      _last_audio_time (final (handle event now c)) = _last_audio_time c) /\
  (forall (e1 e2 e3 : value) (t1 t2 t3 : float) (b1 b2 b3 : bytes)
          (c : RealtimeClient),
      on_audio_delta c = true ->
      _audio_buffer c = [] ->
      _current_audio_sample_count c = 0 ->
      is_audio_delta b64decode e1 b1 -> len b1 = 1000 ->
      is_audio_delta b64decode e2 b2 -> len b2 = 1000 ->
      is_audio_delta b64decode e3 b3 -> len b3 = 1500 ->
      let on_time :=
        PrimFloat.leb
          (PrimFloat.mul (PrimFloat.div (float_of_Z 3500) 48000%float)
                         0.95%float)
          (PrimFloat.sub t3 (_last_audio_time c)) in
      let r := loop [(e1, t1); (e2, t2); (e3, t3)] c in
      played (effects (loop [(e1, t1); (e2, t2)] c)) = [] /\
      outcome r = Ok tt /\
      if on_time
      then played (effects r) = [(b1 ++ b2 ++ b3)%list] /\
           _audio_buffer (final r) = [] /\
           _current_audio_sample_count (final r) = 1750 /\
           _last_audio_time (final r) = t3
      else played (effects r) = [] /\
           _audio_buffer (final r) = (b1 ++ b2 ++ b3)%list /\
           _current_audio_sample_count (final r) = 0 /\
           _last_audio_time (final r) = _last_audio_time c).
Proof.
  split; [| split; [| split]].
  - intros event now c chunk Hcb Hdelta buf due r. subst r due buf.
    rewrite (audio_delta_step json_loads b64decode py_str import_rag_pipeline
               event now c chunk Hcb Hdelta).
    cbv zeta.
    change ((3200 <=? len (_audio_buffer c ++ chunk)) &&
            PrimFloat.leb
              (PrimFloat.mul
                 (PrimFloat.div (float_of_Z (len (_audio_buffer c ++ chunk)))
                                48000%float) 0.95%float)
              (PrimFloat.sub now (_last_audio_time c)))
      with (release_due (len (_audio_buffer c ++ chunk)) now
              (_last_audio_time c)).
    destruct (release_due (len (_audio_buffer c ++ chunk)) now
                (_last_audio_time c));
      unfold outcome, effects, final; cbn; repeat split.
  - reflexivity.
  - apply last_audio_time_moves_only_on_audio_delta.
  - intros e1 e2 e3 t1 t2 t3 b1 b2 b3 c Hcb Hbuf Hcount
      Hd1 Hl1 Hd2 Hl2 Hd3 Hl3 on_time r.
    assert (H1 : handle e1 t1 c = (Ok tt, set_audio_buffer b1 c, [])).
    { rewrite (audio_delta_step json_loads b64decode py_str
                 import_rag_pipeline e1 t1 c b1 Hcb Hd1).
      cbv zeta. rewrite Hbuf. cbn [app]. unfold release_due. rewrite Hl1.
      reflexivity. }
    assert (H2 : handle e2 t2 (set_audio_buffer b1 c) =
                 (Ok tt, set_audio_buffer (b1 ++ b2)%list c, [])).
    { rewrite (audio_delta_step json_loads b64decode py_str
                 import_rag_pipeline e2 t2 (set_audio_buffer b1 c) b2
                 Hcb Hd2).
      cbv zeta. cbn [_audio_buffer set_audio_buffer]. unfold release_due.
      rewrite len_app, Hl1, Hl2. reflexivity. }
    assert (Hlen : len ((b1 ++ b2) ++ b3)%list = 3500).
    { rewrite !len_app, Hl1, Hl2, Hl3. reflexivity. }
    split.
    + cbn [message_loop]. unfold bind. rewrite H1, H2. reflexivity.
    + subst r. cbn [message_loop]. unfold bind. rewrite H1, H2.
      rewrite (audio_delta_step json_loads b64decode py_str
                 import_rag_pipeline e3 t3
                 (set_audio_buffer (b1 ++ b2)%list c) b3 Hcb Hd3).
      cbv zeta. cbn [_audio_buffer _last_audio_time set_audio_buffer].
      unfold release_due. rewrite Hlen.
      change (PrimFloat.leb (target_delay 3500)
                (PrimFloat.sub t3 (_last_audio_time c))) with on_time.
      destruct on_time;
        unfold outcome, effects, final, released;
        cbn; rewrite ?Hlen, ?Hcount, <- ?app_assoc; repeat split.
Qed.


(** C6 (as amended).  If the arguments of a
    [response.function_call_arguments.done] event fail to parse as JSON, the
    error is reported on the console and raised again: the message loop ends
    there, the remaining messages are not handled and nothing is written to
    the socket.  The function name is never looked at: an event with an
    unknown name is handled exactly as an event with any other name and the
    same call id and arguments, so no error is reported for the name and no
    error string is sent for it. *)
Theorem tool_call_parse_failure_ends_loop_and_name_is_ignored :
  (forall (event : value) (now : float) (rest : list (value * float))
          (c : RealtimeClient) (call_id name arguments : value) (e : exn),
      is_function_call event call_id name arguments ->
      json_loads arguments = Raise e ->
      handle_messages json_loads b64decode py_str import_rag_pipeline
        ((event, now) :: rest) c =
      (Raise e, c, [PrintExn "Error in message handling: " e])) /\
  (forall (event event' : value) (now : float) (c : RealtimeClient)
          (call_id name name' arguments : value),
      is_function_call event call_id name arguments ->
      is_function_call event' call_id name' arguments ->
      handle event' now c = handle event now c).
Proof.
  split.
  - intros event now rest c call_id name arguments e Hcall Hparse.
    unfold handle_messages. cbn [message_loop]. unfold bind at 1.
    rewrite (handle_function_call json_loads b64decode py_str
               import_rag_pipeline event now c call_id name arguments Hcall).
    rewrite Hparse, bind_lift_raise. reflexivity.
  - intros event event' now c call_id name name' arguments Hcall Hcall'.
    rewrite (handle_function_call json_loads b64decode py_str
               import_rag_pipeline event now c call_id name arguments Hcall).
    rewrite (handle_function_call json_loads b64decode py_str
               import_rag_pipeline event' now c call_id name' arguments
               Hcall').
    reflexivity.
Qed.

End PacerAndTools.

(** C7.  The code at the claim's event, with the module [utils.py] of the
    repository: every [response.function_call_arguments.done] event whose
    arguments parse, the one of the claim included, reaches the import of
    [call_tool], which raises [NameError]; the error is reported and raised
    again, the message loop ends, and neither a function-call output nor a
    [response.create] is written to the socket, whatever the retrieval
    function would have returned. *)
Theorem tool_call_ends_the_loop_on_import
  (json_loads : value -> result value) (b64decode : value -> result bytes)
  (py_str : value -> string) (rag_pipeline : value -> result value)
  (event : value) (now : float) (rest : list (value * float))
  (c : RealtimeClient) (call_id name arguments tool_arguments : value) :
  is_function_call event call_id name arguments ->
  json_loads arguments = Ok tool_arguments ->
  let r := handle_messages json_loads b64decode py_str
             (Utils.import_rag_pipeline rag_pipeline)
             ((event, now) :: rest) c in
  r = (Raise NameError, c, [PrintExn "Error in message handling: " NameError])
  /\ sent (effects r) = [].
Proof.
  intros Hcall Hparse r.
  assert (Hr : r = (Raise NameError, c,
                    [PrintExn "Error in message handling: " NameError])).
  { subst r. unfold handle_messages. cbn [message_loop]. unfold bind at 1.
    rewrite (handle_function_call json_loads b64decode py_str
               (Utils.import_rag_pipeline rag_pipeline)
               event now c call_id name arguments Hcall).
    rewrite Hparse, bind_lift_ok. reflexivity. }
  rewrite Hr. split; reflexivity.
Qed.

(** * Edge cases of the message loop *)

Section ClientEdges.

Variable json_loads : value -> result value.
Variable b64decode : value -> result bytes.
Variable py_str : value -> string.
Variable import_rag_pipeline : result (value -> result value).

Local Abbreviation handle :=
  (handle_event json_loads b64decode py_str import_rag_pipeline).
Local Abbreviation loop :=
  (message_loop json_loads b64decode py_str import_rag_pipeline).
Local Abbreviation run :=
  (handle_messages json_loads b64decode py_str import_rag_pipeline).

Ltac enter_branch Htype :=
  unfold handle_event; rewrite Htype, bind_lift_ok;
  cbn [eq_str String.eqb Ascii.eqb Bool.eqb andb].

(** When the body of the loop raises on the first message, the loop ends. *)
Lemma run_first_raises (event : value) (now : float)
  (rest : list (value * float)) (c c1 : RealtimeClient)
  (out1 : list effect) (e : exn) :
  handle event now c = (Raise e, c1, out1) ->
  run ((event, now) :: rest) c =
  (Raise e, c1, (out1 ++ [PrintExn "Error in message handling: " e])%list).
Proof.
  intros H. unfold handle_messages. cbn [message_loop]. unfold bind.
  rewrite H. reflexivity.
Qed.

(** X6.  An audio delta without a [delta] field, or whose [delta] does not
    decode, ends the loop when a playback callback was supplied: the error
    is reported, the client is left as it was and the messages that follow
    are not handled.  Without a playback callback the event is ignored and
    its payload is not even looked at. *)
Theorem malformed_audio_delta (event : value) (now : float)
  (rest : list (value * float)) (c : RealtimeClient) :
  event_type_is event "response.audio.delta" ->
  (forall e : exn,
      on_audio_delta c = true ->
      subscript event "delta" = Raise e \/
      (exists delta, subscript event "delta" = Ok delta /\
                     b64decode delta = Raise e) ->
      run ((event, now) :: rest) c =
      (Raise e, c, [PrintExn "Error in message handling: " e])) /\
  (on_audio_delta c = false -> handle event now c = (Ok tt, c, [])).
Proof.
  intros Htype. split.
  - intros e Hcb Hbad. apply (run_first_raises event now rest c c [] e).
    enter_branch Htype. unfold on_audio_delta_event, bind, get, when.
    rewrite Hcb.
    destruct Hbad as [Hmissing | (delta & Hdelta & Hdecode)].
    + rewrite Hmissing. reflexivity.
    + rewrite Hdelta. cbn. rewrite Hdecode. reflexivity.
  - intros Hcb. enter_branch Htype.
    unfold on_audio_delta_event, bind, get, when. rewrite Hcb. reflexivity.
Qed.

(** X7.  With a text callback supplied, a run of [response.text.delta]
    events hands their [delta] values to the callback one by one, in the
    order received and unchanged; nothing else happens and the client is
    left as it was. *)
Theorem text_deltas_are_forwarded_in_order
  (messages : list (value * float)) (deltas : list value)
  (c : RealtimeClient) :
  on_text_delta c = true ->
  Forall2 (fun m delta => is_text_delta (fst m) delta) messages deltas ->
  run messages c = (Ok tt, c, map CallOnTextDelta deltas).
Proof.
  intros Hcb Hall. unfold handle_messages.
  assert (Hloop : loop messages c = (Ok tt, c, map CallOnTextDelta deltas)).
  { induction Hall as [|[event now] delta messages deltas [Htype Hdelta] _ IH].
    - reflexivity.
    - cbn [message_loop map fst] in *. unfold bind at 1.
      assert (Hstep : handle event now c = (Ok tt, c, [CallOnTextDelta delta])).
      { enter_branch Htype. unfold bind, get, when. rewrite Hcb, Hdelta.
        reflexivity. }
      rewrite Hstep, IH. reflexivity. }
  rewrite Hloop. reflexivity.
Qed.

(** X8.  An [error] event whose [error] field is an object, or is missing,
    is reported in three lines, with ["Unknown error"] for a missing
    message and [None] for a missing code or event id; nothing is sent, the
    client is left as it was and the loop goes on.  If the [error] field is
    anything but an object, the loop ends with [AttributeError]. *)
Theorem error_event_is_reported (event : value) (now : float)
  (rest : list (value * float)) (c : RealtimeClient) (err : value) :
  event_type_is event "error" ->
  dict_get event "error" (VDict []) = Ok err ->
  (forall fields, err = VDict fields ->
     handle event now c =
     (Ok tt, c,
      [PrintValue "Error: " (field_or "message" fields (VStr "Unknown error"));
       PrintValue "Code: " (field_or "code" fields VNone);
       PrintValue "Event ID: " (field_or "event_id" fields VNone)])) /\
  ((forall fields, err <> VDict fields) ->
     run ((event, now) :: rest) c =
     (Raise AttributeError, c,
      [PrintExn "Error in message handling: " AttributeError])).
Proof.
  intros Htype Herr. split.
  - intros fields ->. enter_branch Htype.
    rewrite Herr. unfold bind, lift, emit, dict_get, field_or.
    destruct (lookup "message" fields); destruct (lookup "code" fields);
      destruct (lookup "event_id" fields); reflexivity.
  - intros Hnot. apply (run_first_raises event now rest c c [] AttributeError).
    enter_branch Htype.
    rewrite Herr, bind_lift_ok. unfold bind, lift.
    destruct err; try reflexivity. exfalso. eapply Hnot. reflexivity.
Qed.

(** X9.  The extra handlers are consulted last: a handler registered under
    one of the nine event types the loop has a branch for is never
    called.  An event of any other type is passed to the handler registered
    under that type, if there is one, and is ignored otherwise; so is an
    event without a type. *)
Theorem extra_handlers_come_last (event : value) (now : float)
  (c : RealtimeClient) :
  (forall name : string,
      event_type_is event name ->
      In name builtin_event_types ->
      extra_calls (effects (handle event now c)) = []) /\
  (forall name : string,
      event_type_is event name ->
      ~ In name builtin_event_types ->
      handle event now c =
      (Ok tt, c,
       if existsb (String.eqb name) (extra_event_handlers c)
       then [CallExtraHandler (VStr name) event]
       else [])) /\
  (dict_get event "type" VNone = Ok VNone ->
   handle event now c = (Ok tt, c, [])).
Proof.
  split; [| split].
  - intros name Htype Hin.
    unfold builtin_event_types in Hin. cbn [In] in Hin.
    repeat (destruct Hin as [<- | Hin]); try contradiction.
    all: enter_branch Htype.
    all: unfold effects.
    all: unfold on_audio_delta_event, call_tool, handle_interruption,
           truncate_response, cancel_response, send_function_result,
           create_response, ws_send, when, bind, lift, emit, get, modify, ret.
    all: repeat (split_match; cbn [fst snd]).
    all: reflexivity.
  - intros name Htype Hnot.
    assert (Hneq : forall x, In x builtin_event_types ->
                             String.eqb name x = false).
    { intros x Hx. apply String.eqb_neq. intros ->. contradiction. }
    unfold handle_event. rewrite Htype, bind_lift_ok. cbn [eq_str].
    unfold builtin_event_types in Hneq.
    rewrite !Hneq by (cbn [In]; tauto).
    unfold bind, get, lift, key_in, when, emit, ret. cbn.
    destruct (existsb (String.eqb name) (extra_event_handlers c));
      reflexivity.
  - intros Htype. unfold handle_event. rewrite Htype, bind_lift_ok.
    reflexivity.
Qed.

Lemma sent_app (out1 out2 : list effect) :
  sent (out1 ++ out2)%list = (sent out1 ++ sent out2)%list.
Proof.
  induction out1 as [|e out1 IH]; [reflexivity|].
  destruct e; cbn; rewrite ?IH; reflexivity.
Qed.

(** Audio deltas write nothing to the socket and leave the response state
    alone. *)
Lemma audio_deltas_keep_session
  (deltas : list (value * float)) (chunks : list bytes) :
  Forall2 (fun d chunk => is_audio_delta b64decode (fst d) chunk)
          deltas chunks ->
  forall c : RealtimeClient,
  on_audio_delta c = true ->
  let r := loop deltas c in
  sent (effects r) = [] /\
  _is_responding (final r) = _is_responding c /\
  _current_response_id (final r) = _current_response_id c /\
  _current_item_id (final r) = _current_item_id c /\
  on_interrupt (final r) = on_interrupt c.
Proof.
  induction 1 as [|[event now] chunk deltas chunks Hd _ IH];
    intros c Hcb; cbv zeta.
  - repeat split.
  - cbn [message_loop fst] in *. unfold bind.
    rewrite (audio_delta_step json_loads b64decode py_str import_rag_pipeline
               event now c chunk Hcb Hd).
    cbv zeta.
    destruct (release_due (len (_audio_buffer c ++ chunk)) now
                (_last_audio_time c)).
    + specialize (IH (released (_audio_buffer c ++ chunk)%list now c) Hcb).
      cbv zeta in IH.
      destruct (loop deltas (released (_audio_buffer c ++ chunk)%list now c))
        as [[r c2] out2].
      unfold final, effects in *. cbn [fst snd] in *. exact IH.
    + specialize (IH (set_audio_buffer (_audio_buffer c ++ chunk)%list c) Hcb).
      cbv zeta in IH.
      destruct (loop deltas (set_audio_buffer (_audio_buffer c ++ chunk)%list c))
        as [[r c2] out2].
      unfold final, effects in *. cbn [fst snd] in *. exact IH.
Qed.

(** X11.  An interruption after a run of audio deltas truncates the item at
    the audio that was released to the playback callback, not at the audio
    received: [audio_end_ms] is computed from the sample count before the
    run plus half the size of each chunk played, and the bytes still in the
    buffer at that moment do not count. *)
Theorem truncation_counts_released_audio_only
  (deltas : list (value * float)) (chunks : list bytes)
  (event : value) (now : float) (c : RealtimeClient) :
  on_audio_delta c = true ->
  _is_responding c = true ->
  truthy (_current_response_id c) = true ->
  truthy (_current_item_id c) = true ->
  Forall2 (fun d chunk => is_audio_delta b64decode (fst d) chunk)
          deltas chunks ->
  event_type_is event "input_audio_buffer.speech_started" ->
  let r := run (deltas ++ [(event, now)])%list c in
  outcome r = Ok tt /\
  sent (effects r) =
    [cancel_message;
     truncate_message (_current_item_id c) (_current_content_index c)
       ((_current_audio_sample_count c + samples_of (played (effects r)))
        * 1000 / 24000)] /\
  (List.concat (played (effects r)) ++ _audio_buffer (final r))%list =
    (_audio_buffer c ++ List.concat chunks)%list.
Proof.
  intros Hcb Hresp Hrid Hiid Hdeltas Htype r.
  assert (Hrun : exists c1 out1,
             loop deltas c = (Ok tt, c1, out1) /\
             sent out1 = [] /\
             _is_responding c1 = true /\
             _current_response_id c1 = _current_response_id c /\
             _current_item_id c1 = _current_item_id c /\
             _current_content_index c1 = _current_content_index c /\
             _current_audio_sample_count c1 =
               _current_audio_sample_count c + samples_of (played out1) /\
             (List.concat (played out1) ++ _audio_buffer c1)%list =
               (_audio_buffer c ++ List.concat chunks)%list).
  { pose proof (audio_deltas_run json_loads b64decode py_str
                  import_rag_pipeline deltas chunks Hdeltas c Hcb) as H1.
    pose proof (audio_deltas_keep_session deltas chunks Hdeltas c Hcb) as H2.
    pose proof (message_loop_facts json_loads b64decode py_str
                  import_rag_pipeline deltas c) as H3.
    cbv zeta in H1, H2, H3.
    destruct (loop deltas c) as [[r1 c1] out1].
    unfold outcome, final, effects in *. cbn [fst snd] in *.
    destruct H1 as (-> & _ & Hbytes & Hcount).
    destruct H2 as (Hsent & Hr & Hrid' & Hiid' & _).
    destruct H3 as ((_ & _ & _ & _ & Hidx) & _).
    exists c1, out1. repeat split; try assumption. congruence. }
  destruct Hrun as (c1 & out1 & Hloop & Hsent & Hr1 & Hrid1 & Hiid1 & Hidx1
                    & Hcount1 & Hbytes1).
  assert (Hall : r =
            (Ok tt,
             set_current_item_id VNone
               (set_current_response_id VNone (set_is_responding false c1)),
             (out1 ++
              [Print (nl ++ "[Speech detected]");
               Print (nl ++ "[Handling interruption]");
               WsSend cancel_message;
               WsSend (truncate_message
                         (_current_item_id c1) (_current_content_index c1)
                         (_current_audio_sample_count c1 * 1000 / 24000))]
              ++ (if on_interrupt c1 then [CallOnInterrupt] else []))%list)).
  { subst r. unfold handle_messages.
    rewrite (loop_app json_loads b64decode py_str import_rag_pipeline).
    unfold bind at 1. rewrite Hloop. cbn [message_loop]. unfold bind at 1.
    rewrite (speech_started_active json_loads b64decode py_str
               import_rag_pipeline event now c1 Htype Hr1).
    rewrite Hrid1, Hiid1, Hrid, Hiid. unfold ret. cbn [app].
    rewrite app_nil_r. reflexivity. }
  rewrite Hall. unfold outcome, final, effects. cbn [fst snd].
  rewrite !sent_app, !played_app, Hsent.
  assert (Hp : played
                 ([Print (nl ++ "[Speech detected]");
                   Print (nl ++ "[Handling interruption]");
                   WsSend cancel_message;
                   WsSend (truncate_message
                             (_current_item_id c1) (_current_content_index c1)
                             (_current_audio_sample_count c1 * 1000 / 24000))])
               = []) by reflexivity.
  assert (Hi : played (if on_interrupt c1 then [CallOnInterrupt] else [])
               = []) by (destruct (on_interrupt c1); reflexivity).
  assert (Hs : sent (if on_interrupt c1 then [CallOnInterrupt] else [])
               = []) by (destruct (on_interrupt c1); reflexivity).
  rewrite Hp, Hi, Hs, !app_nil_r, Hcount1, Hiid1, Hidx1.
  cbn [sent app _audio_buffer set_current_item_id set_current_response_id
       set_is_responding].
  repeat split. exact Hbytes1.
Qed.

(** X12.  An interruption does not empty the audio buffer: the audio that
    was waiting in it when the user interrupted is handed to the playback
    callback, in one chunk, when [response.done] arrives next. *)
Theorem interrupted_audio_is_played_on_response_done
  (started done : value) (t1 t2 : float) (c : RealtimeClient) :
  on_audio_delta c = true ->
  _is_responding c = true ->
  _audio_buffer c <> [] ->
  event_type_is started "input_audio_buffer.speech_started" ->
  event_type_is done "response.done" ->
  let r := run [(started, t1); (done, t2)] c in
  outcome r = Ok tt /\
  played (effects r) = [_audio_buffer c] /\
  _audio_buffer (final r) = [].
Proof.
  intros Hcb Hresp Hbuf Hstarted Hdone r. subst r.
  unfold handle_messages. cbn [message_loop]. unfold bind.
  rewrite (speech_started_active json_loads b64decode py_str
             import_rag_pipeline started t1 c Hstarted Hresp).
  rewrite (response_done_step json_loads b64decode py_str
             import_rag_pipeline done t2 _ Hdone).
  cbv zeta.
  cbn [_audio_buffer on_audio_delta set_current_item_id
       set_current_response_id set_is_responding].
  rewrite Hcb. destruct (_audio_buffer c) as [|b buf] eqn:Hb;
    [contradiction |].
  unfold ret, outcome, final, effects. cbn [andb fst snd app].
  destruct (truthy (_current_response_id c));
    destruct (truthy (_current_item_id c));
    destruct (on_interrupt c); cbn; repeat split.
Qed.

End ClientEdges.

(** * Further properties of the voice-activity gate *)

Section GateInvariants.

Import Vad.

Lemma handoffs_app (out1 out2 : list action) :
  handoffs (out1 ++ out2)%list = (handoffs out1 ++ handoffs out2)%list.
Proof.
  induction out1 as [|a out1 IH]; [reflexivity|].
  destruct a; cbn; rewrite ?IH; reflexivity.
Qed.

(** What one frame can do. *)
Lemma frame_step_facts (data : bytes) (now : float) (g g1 : gate)
  (out : list action) :
  frame_step data now g = Ok (g1, out) ->
  (gate_consistent g -> gate_consistent g1) /\
  (gate_consistent g -> Forall opens_with_speech (handoffs out)) /\
  (is_processing g = true -> is_processing g1 = true /\ handoffs out = []) /\
  (handoffs out <> [] -> is_processing g = false /\ is_processing g1 = true) /\
  (List.length (handoffs out) <= 1)%nat.
Proof.
  unfold frame_step, classify, gate_consistent.
  destruct (is_silent data) as [silent|e] eqn:Hsilent; [| discriminate].
  destruct silent; destruct (is_speaking g) eqn:Hsp;
    try (destruct (silence_start g) as [started|] eqn:Hst);
    try (destruct (PrimFloat.ltb SILENCE_DURATION
                     (PrimFloat.sub now started)));
    try (destruct (is_processing g) eqn:Hproc);
    cbn; rewrite ?Hsp; cbn;
    intros H; injection H as <- <-; cbn; rewrite ?Hsp, ?Hst;
    repeat split; intros;
    try discriminate; try congruence; try lia; try tauto;
    try (constructor; fail);
    try (constructor; [tauto | constructor]);
    try (intuition congruence);
    try match goal with
        | H : _ /\ _ /\ (true = true -> opens_with_speech _) |- _ =>
            destruct H as (_ & _ & Hopen);
            destruct (Hopen eq_refl) as (first & rest & -> & Hfirst);
            exists first, (rest ++ [data])%list;
            split; [reflexivity | assumption]
        | H : _ /\ (false = false -> ?b = [] /\ _) /\ _ |- _ =>
            destruct H as (_ & Hidle & _);
            destruct (Hidle eq_refl) as [-> _];
            exists data, []; split; [reflexivity | assumption]
        end.
Qed.

Lemma record_and_stream_audio_facts (frames : list (bytes * float)) :
  forall g : gate,
  let r := record_and_stream_audio frames g in
  (gate_consistent g -> gate_consistent (fst r)) /\
  (gate_consistent g -> Forall opens_with_speech (handoffs (snd r))) /\
  (is_processing g = true ->
   is_processing (fst r) = true /\ handoffs (snd r) = []) /\
  (List.length (handoffs (snd r)) <= 1)%nat.
Proof.
  induction frames as [|[data now] frames IH]; intros g; cbv zeta.
  - cbn. split; [auto | split; [intros; constructor | split; [auto | cbn; lia]]].
  - cbn [record_and_stream_audio].
    destruct (frame_step data now g) as [[g1 out1]|e] eqn:Hstep.
    + destruct (frame_step_facts data now g g1 out1 Hstep)
        as (Hc & Ho & Hp & Hh & Hl).
      specialize (IH g1). cbv zeta in IH.
      destruct (record_and_stream_audio frames g1) as [g2 out2].
      cbn [fst snd] in *. destruct IH as (Hc2 & Ho2 & Hp2 & Hl2).
      rewrite handoffs_app. split; [| split; [| split]].
      * auto.
      * intros Hg. apply Forall_app. split; auto.
      * intros Hproc. destruct (Hp Hproc) as [Hp1 ->].
        destruct (Hp2 Hp1) as [Hp3 ->]. split; [exact Hp3 | reflexivity].
      * destruct (handoffs out1) as [|u rest] eqn:Hout1.
        -- exact Hl2.
        -- destruct Hh as [_ Hp1]; [discriminate |].
           destruct (Hp2 Hp1) as [_ ->]. rewrite app_nil_r. exact Hl.
    + cbn. split; [auto | split; [intros; constructor | split; [auto | cbn; lia]]].
Qed.

(** X13.  The flags of the recording loop stay consistent over any
    sequence of frames: [is_user_speaking] always equals [is_speaking];
    outside an utterance the utterance buffer is empty and no silence is
    being timed; inside one the buffer is not empty and starts with the
    frame that opened the utterance. *)
Theorem gate_stays_consistent (frames : list (bytes * float)) (g : gate) :
  gate_consistent g ->
  gate_consistent (fst (record_and_stream_audio frames g)).
Proof. apply (record_and_stream_audio_facts frames g). Qed.

(** X14.  Every utterance the loop hands to [process_audio] is non-empty
    and begins with the frame that was taken for speech and opened it. *)
Theorem handed_off_utterances_open_with_speech
  (frames : list (bytes * float)) (g : gate) :
  gate_consistent g ->
  Forall opens_with_speech
         (handoffs (snd (record_and_stream_audio frames g))).
Proof. apply (record_and_stream_audio_facts frames g). Qed.

(** X15.  The loop sets [is_processing] and never clears it: left to
    itself it hands off at most one utterance, and none at all if
    [is_processing] is already set; every later utterance is dropped until
    [process_audio] has cleared the flag. *)
Theorem at_most_one_handoff_until_processing_ends
  (frames : list (bytes * float)) (g : gate) :
  (List.length (handoffs (snd (record_and_stream_audio frames g))) <= 1)%nat /\
  (is_processing g = true ->
   is_processing (fst (record_and_stream_audio frames g)) = true /\
   handoffs (snd (record_and_stream_audio frames g)) = []).
Proof.
  destruct (record_and_stream_audio_facts frames g) as (_ & _ & Hp & Hl).
  split; assumption.
Qed.

End GateInvariants.

(** * The silence test *)

Section SilenceTest.

Import Vad.

Lemma frombuffer_int16_even :
  forall data : bytes,
  Nat.even (List.length data) = true ->
  exists samples, frombuffer_int16 data = Ok samples.
Proof.
  fix IH 1. intros [|lo [|hi rest]] Heven.
  - exists []. reflexivity.
  - discriminate.
  - cbn [List.length Nat.even] in Heven.
    destruct (IH rest Heven) as [samples Hsamples].
    exists (int16_le lo hi :: samples). cbn [frombuffer_int16].
    rewrite Hsamples. reflexivity.
Qed.

Lemma frombuffer_int16_odd :
  forall data : bytes,
  Nat.even (List.length data) = false ->
  frombuffer_int16 data = Raise ValueError.
Proof.
  fix IH 1. intros [|lo [|hi rest]] Hodd.
  - discriminate.
  - reflexivity.
  - cbn [List.length Nat.even] in Hodd. cbn [frombuffer_int16].
    rewrite (IH rest Hodd). reflexivity.
Qed.

(** X16.  [is_silent] returns an answer for every frame with an even
    number of bytes, the empty one included, and raises [ValueError] for a
    frame with an odd number of bytes; such a frame ends the recording loop
    on the spot, the gate is left as it was and the frames that follow are
    never read. *)
Theorem odd_sized_frame_ends_recording (data : bytes) :
  (Nat.even (List.length data) = true ->
   exists silent, is_silent data = Ok silent) /\
  (Nat.even (List.length data) = false ->
   is_silent data = Raise ValueError /\
   forall (now : float) (rest : list (bytes * float)) (g : gate),
     record_and_stream_audio ((data, now) :: rest) g =
     (g, [LogInfo "Error in record_and_stream_audio"])).
Proof.
  split.
  - intros Heven. destruct (frombuffer_int16_even data Heven) as [s Hs].
    unfold is_silent. rewrite Hs. eexists. reflexivity.
  - intros Hodd.
    assert (Hsilent : is_silent data = Raise ValueError).
    { unfold is_silent. rewrite (frombuffer_int16_odd data Hodd).
      reflexivity. }
    split; [exact Hsilent |]. intros now rest g.
    cbn [record_and_stream_audio]. unfold frame_step. rewrite Hsilent.
    reflexivity.
Qed.

Lemma one_sample_rule_holds :
  forallb (fun lo => forallb (one_sample_rule lo) byte_values) byte_values
  = true.
Proof. vm_compute. reflexivity. Qed.

Lemma byte_value_in (b : byte) : In (Byte.to_N b) byte_values.
Proof.
  unfold byte_values. apply in_map_iff.
  exists (N.to_nat (Byte.to_N b)). split.
  - apply N2Nat.id.
  - apply in_seq. pose proof (Byte.to_N_bounded b). lia.
Qed.

(** X17.  On a frame of a single sample the threshold of 250 decides
    nothing: because the square is taken in 16-bit arithmetic, the frame is
    taken for silence exactly when the wrapped square of the sample is not
    negative (a sample of 256, whose square wraps to 0, is silence; a sample
    of 250, whose square wraps to -3036, is speech). *)
Theorem one_sample_frame_is_silent_iff_wrapped_square_nonnegative
  (lo hi : byte) :
  is_silent [lo; hi] =
  Ok (0 <=? wrap_int16 (int16_le lo hi * int16_le lo hi)).
Proof.
  pose proof one_sample_rule_holds as Hall.
  rewrite forallb_forall in Hall.
  specialize (Hall (Byte.to_N lo) (byte_value_in lo)).
  rewrite forallb_forall in Hall.
  specialize (Hall (Byte.to_N hi) (byte_value_in hi)).
  unfold one_sample_rule in Hall. rewrite !Byte.of_to_N in Hall.
  destruct (is_silent [lo; hi]) as [silent|e]; [| discriminate].
  apply Bool.eqb_prop in Hall. congruence.
Qed.

End SilenceTest.

(** * The worker thread *)

Section WorkerFacts.

Import Vad.

Variable b64encode : bytes -> string.
Variable ws_send : value -> result unit.

Local Abbreviation process :=
  (Worker.process_audio b64encode ws_send).

Lemma process_audio_ok
  (connected : bool) (utterance : list bytes) (g : gate) :
  (forall event, ws_send event = Ok tt) ->
  process connected connected utterance g =
  ({| is_speaking := is_speaking g;
      is_processing := false;
      is_user_speaking := is_user_speaking g;
      silence_start := silence_start g;
      audio_buffer := audio_buffer g |},
   if connected
   then [Worker.append_message b64encode (List.concat utterance);
         Worker.commit_message; Worker.create_message]
   else [],
   Ok tt).
Proof.
  intros Hsend. unfold Worker.process_audio, Worker.send_audio, Worker.send.
  destruct connected; [| reflexivity].
  rewrite !Hsend. reflexivity.
Qed.

(** X18.  When every send succeeds, [process_audio] on a connected socket
    sends exactly three messages, in this order: the utterance, joined and
    encoded, as one [input_audio_buffer.append], then
    [input_audio_buffer.commit], then [response.create]; on a socket that is
    not connected it sends nothing and the utterance is lost.  Either way it
    clears [is_processing] and touches nothing else of the gate. *)
Theorem process_audio_sends_append_commit_create
  (connected : bool) (utterance : list bytes) (g : gate) :
  (forall event, ws_send event = Ok tt) ->
  process connected connected utterance g =
  ({| is_speaking := is_speaking g;
      is_processing := false;
      is_user_speaking := is_user_speaking g;
      silence_start := silence_start g;
      audio_buffer := audio_buffer g |},
   if connected
   then [Worker.append_message b64encode (List.concat utterance);
         Worker.commit_message; Worker.create_message]
   else [],
   Ok tt).
Proof. apply process_audio_ok. Qed.

(** X19.  When a send raises inside [process_audio], the thread ends
    without clearing [is_processing]: the flag stays set for good, and the
    recording loop never hands off another utterance, whatever frames it
    reads afterwards. *)
Theorem failed_send_blocks_every_later_utterance
  (connected still_connected : bool) (utterance : list bytes)
  (g g' : gate) (accepted : list value) (e : exn)
  (frames : list (bytes * float)) :
  is_processing g = true ->
  process connected still_connected utterance g = (g', accepted, Raise e) ->
  g' = g /\
  handoffs (snd (record_and_stream_audio frames g')) = [] /\
  is_processing (fst (record_and_stream_audio frames g')) = true.
Proof.
  intros Hproc Hrun.
  assert (Hsame : g' = g).
  { unfold Worker.process_audio, Worker.send_audio, Worker.send in Hrun.
    destruct connected; [| discriminate].
    destruct still_connected;
      repeat match type of Hrun with
             | context [ws_send ?m] => destruct (ws_send m)
             end;
      cbn in Hrun; congruence. }
  subst g'. split; [reflexivity |].
  destruct (record_and_stream_audio_facts frames g) as (_ & _ & Hnone & _).
  destruct (Hnone Hproc) as [H1 H2]. split; assumption.
Qed.

(** X20.  Once [process_audio] has returned, the next utterance is handed
    off again: if the gate is in an utterance whose silence began at
    [started] while the previous utterance is still being processed, and
    the worker then finishes, a silent frame more than 0.3 s after [started]
    hands the whole utterance buffer to a new worker. *)
Theorem handoff_resumes_after_process_audio
  (connected : bool) (previous : list bytes) (g : gate)
  (data : bytes) (now started : float) :
  (forall event, ws_send event = Ok tt) ->
  is_speaking g = true ->
  silence_start g = Some started ->
  is_silent data = Ok true ->
  PrimFloat.ltb SILENCE_DURATION (PrimFloat.sub now started) = true ->
  frame_step data now (fst (fst (process connected connected previous g))) =
  Ok ({| is_speaking := false;
         is_processing := true;
         is_user_speaking := false;
         silence_start := None;
         audio_buffer := [] |},
      [StartProcessAudio (audio_buffer g)]).
Proof.
  intros Hsend Hsp Hst Hsilent Hlong.
  rewrite (process_audio_ok connected previous g Hsend).
  cbn [fst]. unfold frame_step, classify. rewrite Hsilent.
  cbn [is_speaking is_processing silence_start audio_buffer].
  rewrite Hsp, Hst, Hlong. reflexivity.
Qed.

End WorkerFacts.

(** * The text splitter *)

Section LoaderFacts.

Import Loader.

Lemma firstn_skipn_slice {A : Type} (l : list A) (i width : Z) :
  0 <= i -> 0 <= width ->
  py_slice l i (i + width) =
  firstn (Z.to_nat width) (skipn (Z.to_nat i) l).
Proof.
  intros Hi Hw. unfold py_slice, len.
  replace (i <? 0) with false by (symmetry; apply Z.ltb_ge; lia).
  replace (i + width <? 0) with false by (symmetry; apply Z.ltb_ge; lia).
  destruct (Z_le_gt_dec i (Z.of_nat (List.length l))) as [Hin | Hout].
  - rewrite (Z.min_l i) by lia.
    destruct (Z_le_gt_dec (i + width) (Z.of_nat (List.length l)))
      as [Hfit | Hover].
    + rewrite Z.min_l by lia. f_equal. lia.
    + rewrite Z.min_r by lia.
      rewrite !firstn_all2; try reflexivity;
        rewrite length_skipn; lia.
  - rewrite !Z.min_r by lia.
    rewrite !skipn_all2 by lia. rewrite !firstn_nil. reflexivity.
Qed.

Lemma range_up_bounds (stop step : Z) :
  0 < step ->
  forall (fuel : nat) (i j : Z),
  In j (range_up fuel i stop step) -> i <= j < stop.
Proof.
  intros Hstep. induction fuel as [|fuel IH]; intros i j Hin.
  - contradiction.
  - cbn [range_up] in Hin. destruct (i <? stop) eqn:Hlt; [| contradiction].
    apply Z.ltb_lt in Hlt. destruct Hin as [<- | Hin]; [lia |].
    apply IH in Hin. lia.
Qed.

Lemma range_up_length (stop step : Z) :
  0 < step ->
  forall (fuel : nat) (i : Z),
  stop - i <= Z.of_nat fuel ->
  len (range_up fuel i stop step) = Z.max 0 ((stop - i + step - 1) / step).
Proof.
  intros Hstep. induction fuel as [|fuel IH]; intros i Hfuel.
  - cbn. rewrite Z.max_l; [reflexivity |].
    apply Z.lt_succ_r. apply Z.div_lt_upper_bound; lia.
  - cbn [range_up]. destruct (i <? stop) eqn:Hlt.
    + apply Z.ltb_lt in Hlt. unfold len in *. cbn [List.length].
      rewrite Nat2Z.inj_succ, (IH (i + step)) by lia.
      replace (stop - i + step - 1) with (stop - i - 1 + 1 * step) by lia.
      rewrite Z.div_add by lia.
      replace (stop - (i + step) + step - 1) with (stop - i - 1) by lia.
      pose proof (Z.div_pos (stop - i - 1) step). lia.
    + apply Z.ltb_ge in Hlt. cbn. rewrite Z.max_l; [reflexivity |].
      apply Z.lt_succ_r. apply Z.div_lt_upper_bound; lia.
Qed.

Lemma range_up_tiles {A : Type} (l : list A) (step : Z) :
  0 < step ->
  forall (fuel : nat) (i : Z),
  0 <= i ->
  len l - i <= Z.of_nat fuel ->
  List.concat
    (map (fun j => firstn (Z.to_nat step) (skipn (Z.to_nat j) l))
         (range_up fuel i (len l) step))
  = skipn (Z.to_nat i) l.
Proof.
  intros Hstep. induction fuel as [|fuel IH]; intros i Hi Hfuel.
  - cbn. symmetry. apply skipn_all2. unfold len in *. lia.
  - cbn [range_up]. destruct (i <? len l) eqn:Hlt.
    + cbn [map List.concat]. rewrite (IH (i + step)) by lia.
      replace (Z.to_nat (i + step)) with (Z.to_nat step + Z.to_nat i)%nat
        by lia.
      rewrite <- skipn_skipn. apply firstn_skipn.
    + apply Z.ltb_ge in Hlt. cbn. symmetry. apply skipn_all2.
      unfold len in *. lia.
Qed.

(** The chunks, when the overlap is smaller than the chunk. *)
Lemma word_chunks_ok (words : list string) (words_per_chunk overlap : Z) :
  overlap < words_per_chunk ->
  word_chunks words words_per_chunk overlap =
  Ok (map (fun i => py_slice words i (i + words_per_chunk))
          (range_up (Z.to_nat (len words)) 0 (len words)
                    (words_per_chunk - overlap))).
Proof.
  intros Hlt. unfold word_chunks, py_range.
  replace (words_per_chunk - overlap =? 0) with false
    by (symmetry; apply Z.eqb_neq; lia).
  replace (words_per_chunk - overlap <? 0) with false
    by (symmetry; apply Z.ltb_ge; lia).
  reflexivity.
Qed.

(** X21.  With [0 <= overlap < words_per_chunk], a text of [n] words is
    split into the smallest number of chunks whose starts, one every
    [words_per_chunk - overlap] words, cover it, that is [n] divided by that
    step, rounded up; a text without words gives no chunk; and every chunk
    has at least one word and at most [words_per_chunk]. *)
Theorem chunk_count_and_sizes
  (findall : string -> list string) (text : string)
  (words_per_chunk overlap : Z) :
  0 <= overlap < words_per_chunk ->
  let step := words_per_chunk - overlap in
  exists (chunks : list (list string)),
    word_chunks (findall text) words_per_chunk overlap = Ok chunks /\
    split_text_into_chunks findall text words_per_chunk overlap =
      Ok (map (String.concat " ") chunks) /\
    len chunks = (len (findall text) + step - 1) / step /\
    Forall (fun chunk => 1 <= len chunk <= words_per_chunk) chunks.
Proof.
  intros Hov step. subst step. set (words := findall text).
  eexists. split; [apply word_chunks_ok; lia |].
  split; [unfold split_text_into_chunks; fold words;
          rewrite word_chunks_ok by lia; reflexivity |].
  split.
  - unfold len at 1. rewrite length_map. fold (len (range_up (Z.to_nat (len words)) 0 (len words) (words_per_chunk - overlap))).
    rewrite range_up_length by (pose proof (len_nonneg words); lia).
    rewrite Z.sub_0_r. apply Z.max_r.
    apply Z.div_pos; pose proof (len_nonneg words); lia.
  - apply Forall_forall. intros chunk Hin. apply in_map_iff in Hin.
    destruct Hin as (i & <- & Hi).
    apply range_up_bounds in Hi; [| lia].
    rewrite firstn_skipn_slice by lia.
    unfold len in *. rewrite length_firstn, length_skipn. lia.
Qed.

(** X22.  With [0 <= overlap < words_per_chunk], no word is lost and the
    order is kept: the first [words_per_chunk - overlap] words of each
    chunk, put end to end, are the words of the text. *)
Theorem chunks_cover_the_text
  (words : list string) (words_per_chunk overlap : Z)
  (chunks : list (list string)) :
  0 <= overlap < words_per_chunk ->
  word_chunks words words_per_chunk overlap = Ok chunks ->
  List.concat
    (map (firstn (Z.to_nat (words_per_chunk - overlap))) chunks) = words.
Proof.
  intros Hov Hchunks. rewrite word_chunks_ok in Hchunks by lia.
  injection Hchunks as <-. rewrite map_map.
  rewrite (map_ext_in _
             (fun j => firstn (Z.to_nat (words_per_chunk - overlap))
                              (skipn (Z.to_nat j) words))).
  - rewrite range_up_tiles by (pose proof (len_nonneg words); lia).
    reflexivity.
  - intros i Hi. apply range_up_bounds in Hi; [| lia].
    rewrite firstn_skipn_slice by lia.
    rewrite firstn_firstn. f_equal. lia.
Qed.

(** X23.  An overlap equal to the chunk size makes the splitter raise
    [ValueError] (the step of its [range] is zero), and a larger overlap
    makes it return no chunk at all, whatever the text. *)
Theorem overlap_not_below_chunk_size
  (findall : string -> list string) (text : string)
  (words_per_chunk overlap : Z) :
  (overlap = words_per_chunk ->
   split_text_into_chunks findall text words_per_chunk overlap =
   Raise ValueError) /\
  (words_per_chunk < overlap ->
   split_text_into_chunks findall text words_per_chunk overlap = Ok []).
Proof.
  unfold split_text_into_chunks, word_chunks, py_range. split.
  - intros ->. rewrite Z.sub_diag. reflexivity.
  - intros Hlt.
    replace (words_per_chunk - overlap =? 0) with false
      by (symmetry; apply Z.eqb_neq; lia).
    replace (words_per_chunk - overlap <? 0) with true
      by (symmetry; apply Z.ltb_lt; lia).
    reflexivity.
Qed.

(** X24.  A text that fits in one chunk but has more words than the step
    [words_per_chunk - overlap] is still split further: the first chunk is
    the whole text, and at least one more chunk follows, each of them a
    proper tail of the text, so all of its words are already in the first
    chunk. *)
Theorem short_text_yields_redundant_chunks
  (words : list string) (words_per_chunk overlap : Z) :
  0 <= overlap < words_per_chunk ->
  words_per_chunk - overlap < len words <= words_per_chunk ->
  exists (more : list (list string)),
    word_chunks words words_per_chunk overlap = Ok (words :: more) /\
    more <> [] /\
    Forall (fun chunk =>
              exists j, 0 < j < len words /\
                        chunk = skipn (Z.to_nat j) words) more.
Proof.
  intros Hov Hn. rewrite word_chunks_ok by lia.
  destruct (Z.to_nat (len words)) as [|fuel] eqn:Hfuel; [lia |].
  cbn [range_up]. replace (0 <? len words) with true
    by (symmetry; apply Z.ltb_lt; lia).
  cbn [map]. eexists. split; [| split].
  - f_equal. f_equal. rewrite firstn_skipn_slice by lia.
    cbn [skipn Z.to_nat]. apply firstn_all2. unfold len in *. lia.
  - destruct fuel as [|fuel]; [lia |]. cbn [range_up].
    replace (0 + (words_per_chunk - overlap) <? len words) with true
      by (symmetry; apply Z.ltb_lt; lia).
    discriminate.
  - apply Forall_forall. intros chunk Hin. apply in_map_iff in Hin.
    destruct Hin as (j & <- & Hj). apply range_up_bounds in Hj; [| lia].
    exists j. split; [lia |].
    rewrite firstn_skipn_slice by lia. apply firstn_all2.
    unfold len in *. rewrite length_skipn. lia.
Qed.

End LoaderFacts.

(** * Receiving and playing audio *)

Section PlaybackFacts.

Import Playback.

Variable json_loads : value -> result value.
Variable b64decode : value -> result bytes.

Lemma on_message_keeps_queue (message : value) (queue : list bytes) :
  exists extra, fst (on_message json_loads b64decode message queue)
                = (queue ++ extra)%list.
Proof.
  unfold on_message, on_message_body.
  repeat (split_match; cbn [fst snd]).
  all: first [exists []; rewrite app_nil_r; reflexivity
             | eexists; reflexivity].
Qed.

Lemma on_messages_audio (messages : list value) (chunks : list bytes) :
  Forall2 (carries_audio json_loads b64decode) messages chunks ->
  forall queue,
  on_messages json_loads b64decode messages queue = (queue ++ chunks)%list.
Proof.
  induction 1 as [|message chunk messages chunks Hm _ IH]; intros queue.
  - cbn. rewrite app_nil_r. reflexivity.
  - destruct Hm as (event & delta & Hparse & Htype & Hdelta & Hdecode).
    cbn [on_messages]. unfold on_message, on_message_body.
    rewrite Hparse, Htype.
    cbn [eq_str String.eqb Ascii.eqb Bool.eqb andb].
    rewrite Hdelta, Hdecode. cbn [fst]. rewrite IH, <- app_assoc.
    reflexivity.
Qed.

Lemma written_app (out1 out2 : list output) :
  written (out1 ++ out2)%list = (written out1 ++ written out2)%list.
Proof.
  induction out1 as [|o out1 IH]; [reflexivity|].
  destruct o; cbn; rewrite ?IH; reflexivity.
Qed.

Lemma playback_drains (turns : nat) :
  forall p : player,
  (List.length (audio_queue p) <= turns)%nat ->
  written (snd (playback turns p)) = audio_queue p /\
  audio_queue (fst (playback turns p)) = [].
Proof.
  induction turns as [|turns IH]; intros p Hlen.
  - destruct (audio_queue p) eqn:Hq; [| cbn in Hlen; lia].
    cbn. rewrite Hq. split; reflexivity.
  - cbn [playback]. unfold playback_turn.
    destruct (audio_queue p) as [|chunk rest] eqn:Hq.
    + destruct (audio_output_stream p) as [[|]|] eqn:Hs.
      * specialize (IH (mkPlayer [] (Some false))). cbn in IH.
        destruct (playback turns (mkPlayer [] (Some false))) as [p2 out2].
        cbn [fst snd] in *. rewrite written_app. cbn.
        apply IH. lia.
      * specialize (IH p). rewrite Hq in IH.
        destruct (playback turns p) as [p2 out2].
        cbn [fst snd app] in *. apply IH. cbn. lia.
      * specialize (IH p). rewrite Hq in IH.
        destruct (playback turns p) as [p2 out2].
        cbn [fst snd app] in *. apply IH. cbn. lia.
    + cbn [List.length] in Hlen.
      specialize (IH (mkPlayer rest (Some true))). cbn in IH.
      destruct (audio_output_stream p) as [[|]|];
        destruct (playback turns (mkPlayer rest (Some true))) as [p2 out2];
        cbn [fst snd] in *; rewrite written_app; cbn;
        (destruct IH as [-> ->]; [lia |]); split; reflexivity.
Qed.

(** X25.  [on_message] never takes audio off the queue, whatever the
    message; a run of audio deltas is queued in the order received, each
    decoded once; and the playback thread, left to run with the user silent
    for at least as many turns as there are chunks, writes exactly these
    chunks to the output stream, in that order, and empties the queue. *)
Theorem received_audio_is_written_in_order
  (messages : list value) (chunks : list bytes)
  (stream : option bool) (turns : nat) :
  (forall message queue,
      exists extra, fst (on_message json_loads b64decode message queue)
                    = (queue ++ extra)%list) /\
  (Forall2 (carries_audio json_loads b64decode) messages chunks ->
   (List.length chunks <= turns)%nat ->
   let queued := on_messages json_loads b64decode messages [] in
   let r := playback turns (mkPlayer queued stream) in
   queued = chunks /\
   written (snd r) = chunks /\
   audio_queue (fst r) = []).
Proof.
  split; [apply on_message_keeps_queue |].
  intros Hall Hturns queued r. subst r queued.
  rewrite (on_messages_audio messages chunks Hall []). cbn [app].
  split; [reflexivity |].
  apply (playback_drains turns (mkPlayer chunks stream)). exact Hturns.
Qed.

End PlaybackFacts.

(** * The further properties at concrete inputs *)

(** A client without playback callback, fed 3600 bytes of audio. *)
Lemma sample_count_never_decreases_witness :
  on_audio_delta (__init__ true false true []) = false /\
  _current_audio_sample_count
    (final (Sample.run [(Sample.audio_delta Sample.zeros_3600, 10%float)]
              (__init__ true false true []))) = 0.
Proof.
  split; [reflexivity |].
  exact (proj2 (sample_count_never_decreases
                  Sample.json_loads Sample.b64decode Sample.py_str
                  (Ok Sample.rag_pipeline)
                  [(Sample.audio_delta Sample.zeros_3600, 10%float)]
                  (__init__ true false true [])) eq_refl).
Defined.

(** A new client, after a response was announced and interrupted. *)
Lemma idle_client_holds_no_response_id_witness :
  idle_consistent (__init__ true true true []) /\
  idle_consistent
    (final (Sample.run [(Sample.response_created "resp_1", 1%float);
                        (Sample.speech_started, 2%float)]
              (__init__ true true true []))).
Proof.
  assert (H0 : idle_consistent (__init__ true true true []))
    by (intros _; reflexivity).
  split; [exact H0 |].
  exact (idle_client_holds_no_response_id
           Sample.json_loads Sample.b64decode Sample.py_str
           (Ok Sample.rag_pipeline)
           [(Sample.response_created "resp_1", 1%float);
            (Sample.speech_started, 2%float)]
           (__init__ true true true []) H0).
Defined.

Lemma playback_never_gets_an_empty_chunk_witness :
  on_audio_delta (__init__ true false true []) = false /\
  played (effects
    (Sample.run [(Sample.audio_delta Sample.zeros_3600, 10%float);
                 (Sample.response_done, 11%float)]
       (__init__ true false true []))) = [].
Proof.
  split; [reflexivity |].
  exact (proj2 (playback_never_gets_an_empty_chunk
                  Sample.json_loads Sample.b64decode Sample.py_str
                  (Ok Sample.rag_pipeline)
                  [(Sample.audio_delta Sample.zeros_3600, 10%float);
                   (Sample.response_done, 11%float)]
                  (__init__ true false true [])) eq_refl).
Defined.

Lemma only_response_done_plays_short_chunks_witness :
  let messages := [(Sample.audio_delta Sample.zeros_1000, 10%float);
                   (Sample.audio_delta Sample.zeros_3600, 10%float)] in
  Forall (fun m => ~ event_type_is (fst m) "response.done") messages /\
  Forall (fun chunk : bytes => 3200 <= len chunk)
         (played (effects (Sample.run messages Sample2.listener))).
Proof.
  intros messages.
  assert (Hall : Forall (fun m => ~ event_type_is (fst m) "response.done")
                        messages).
  { repeat constructor; intros H; inversion H. }
  split; [exact Hall |].
  exact (only_response_done_plays_short_chunks
           Sample.json_loads Sample.b64decode Sample.py_str
           (Ok Sample.rag_pipeline) messages Sample2.listener Hall).
Defined.

Lemma malformed_audio_delta_witness :
  event_type_is Sample2.empty_audio_delta "response.audio.delta" /\
  subscript Sample2.empty_audio_delta "delta" = Raise (KeyError "delta") /\
  Sample.run [(Sample2.empty_audio_delta, 1%float);
              (Sample.speech_started, 2%float)] Sample2.listener =
  (Raise (KeyError "delta"), Sample2.listener,
   [PrintExn "Error in message handling: " (KeyError "delta")]) /\
  Sample.step Sample2.empty_audio_delta 1%float (__init__ true false true [])
  = (Ok tt, __init__ true false true [], []).
Proof.
  split; [reflexivity |]. split; [reflexivity |].
  pose proof (malformed_audio_delta
                Sample.json_loads Sample.b64decode Sample.py_str
                (Ok Sample.rag_pipeline) Sample2.empty_audio_delta 1%float
                [(Sample.speech_started, 2%float)]) as H.
  split.
  - exact (proj1 (H Sample2.listener eq_refl) (KeyError "delta") eq_refl
             (or_introl eq_refl)).
  - exact (proj2 (H (__init__ true false true []) eq_refl) eq_refl).
Defined.

Lemma text_deltas_are_forwarded_in_order_witness :
  let messages := [(Sample2.text_delta "Bon", 1%float);
                   (Sample2.text_delta "jour", 2%float)] in
  on_text_delta (__init__ true false false []) = true /\
  Forall2 (fun m delta => is_text_delta (fst m) delta) messages
          [VStr "Bon"; VStr "jour"] /\
  Sample.run messages (__init__ true false false []) =
  (Ok tt, __init__ true false false [],
   [CallOnTextDelta (VStr "Bon"); CallOnTextDelta (VStr "jour")]).
Proof.
  intros messages.
  assert (Hall : Forall2 (fun m delta => is_text_delta (fst m) delta)
                         messages [VStr "Bon"; VStr "jour"]).
  { repeat constructor. }
  split; [reflexivity |]. split; [exact Hall |].
  exact (text_deltas_are_forwarded_in_order
           Sample.json_loads Sample.b64decode Sample.py_str
           (Ok Sample.rag_pipeline) messages [VStr "Bon"; VStr "jour"]
           (__init__ true false false []) eq_refl Hall).
Defined.

Lemma error_event_is_reported_witness :
  event_type_is Sample2.error_event "error" /\
  Sample.step Sample2.error_event 1%float (__init__ true true true []) =
  (Ok tt, __init__ true true true [],
   [PrintValue "Error: " (VStr "Invalid value");
    PrintValue "Code: " (VStr "invalid_value");
    PrintValue "Event ID: " VNone]) /\
  event_type_is Sample2.bad_error_event "error" /\
  Sample.run [(Sample2.bad_error_event, 1%float)]
    (__init__ true true true []) =
  (Raise AttributeError, __init__ true true true [],
   [PrintExn "Error in message handling: " AttributeError]).
Proof.
  split; [reflexivity |]. split.
  - exact (proj1 (error_event_is_reported
                    Sample.json_loads Sample.b64decode Sample.py_str
                    (Ok Sample.rag_pipeline) Sample2.error_event 1%float []
                    (__init__ true true true [])
                    (VDict [("message", VStr "Invalid value");
                            ("code", VStr "invalid_value")])
                    eq_refl eq_refl)
             [("message", VStr "Invalid value");
              ("code", VStr "invalid_value")] eq_refl).
  - split; [reflexivity |].
    refine (proj2 (error_event_is_reported
                     Sample.json_loads Sample.b64decode Sample.py_str
                     (Ok Sample.rag_pipeline) Sample2.bad_error_event 1%float
                     [] (__init__ true true true []) (VStr "boom")
                     eq_refl eq_refl) _).
    intros fields H. discriminate H.
Defined.

(** A handler registered for [response.done] and one for
    [session.created]. *)
Lemma extra_handlers_come_last_witness :
  let c := __init__ true true true ["response.done"; "session.created"] in
  (event_type_is Sample.response_done "response.done" /\
   In "response.done" builtin_event_types /\
   extra_calls (effects (Sample.step Sample.response_done 1%float c)) = []) /\
  (event_type_is Sample2.session_created "session.created" /\
   ~ In "session.created" builtin_event_types /\
   Sample.step Sample2.session_created 1%float c =
   (Ok tt, c,
    [CallExtraHandler (VStr "session.created") Sample2.session_created])).
Proof.
  intros c.
  assert (Hin : In "response.done" builtin_event_types)
    by (cbn; tauto).
  assert (Hnot : ~ In "session.created" builtin_event_types).
  { cbn. intros H.
    repeat (destruct H as [H | H]; [discriminate H |]). exact H. }
  pose proof (extra_handlers_come_last
                Sample.json_loads Sample.b64decode Sample.py_str
                (Ok Sample.rag_pipeline)) as H.
  split.
  - split; [reflexivity |]. split; [exact Hin |].
    exact (proj1 (H Sample.response_done 1%float c)
             "response.done" eq_refl Hin).
  - split; [reflexivity |]. split; [exact Hnot |].
    exact (proj1 (proj2 (H Sample2.session_created 1%float c))
             "session.created" eq_refl Hnot).
Defined.

(** 1000 bytes are received and none is released before the user
    interrupts: the item is truncated at the two seconds played before. *)
Lemma truncation_counts_released_audio_only_witness :
  let deltas := [(Sample.audio_delta Sample.zeros_1000, 10%float)] in
  on_audio_delta Sample.responding = true /\
  _is_responding Sample.responding = true /\
  Forall2 (fun d chunk => is_audio_delta Sample.b64decode (fst d) chunk)
          deltas [repeat x00 1000] /\
  event_type_is Sample.speech_started "input_audio_buffer.speech_started" /\
  outcome (Sample.run (deltas ++ [(Sample.speech_started, 11%float)])%list
             Sample.responding) = Ok tt.
Proof.
  intros deltas.
  assert (Hdeltas :
            Forall2 (fun d chunk =>
                       is_audio_delta Sample.b64decode (fst d) chunk)
                    deltas [repeat x00 1000]).
  { constructor; [exact decode_zeros_1000 | constructor]. }
  split; [reflexivity |]. split; [reflexivity |].
  split; [exact Hdeltas |]. split; [reflexivity |].
  exact (proj1
    (truncation_counts_released_audio_only
       Sample.json_loads Sample.b64decode Sample.py_str
       (Ok Sample.rag_pipeline) deltas [repeat x00 1000]
       Sample.speech_started 11%float Sample.responding
       eq_refl eq_refl eq_refl eq_refl Hdeltas eq_refl)).
Defined.

Lemma interrupted_audio_is_played_on_response_done_witness :
  on_audio_delta Sample2.buffering = true /\
  _is_responding Sample2.buffering = true /\
  _audio_buffer Sample2.buffering <> [] /\
  played (effects (Sample.run [(Sample.speech_started, 1%float);
                               (Sample.response_done, 2%float)]
                     Sample2.buffering))
  = [_audio_buffer Sample2.buffering].
Proof.
  assert (Hbuf : _audio_buffer Sample2.buffering <> [])
    by (intros H; discriminate H).
  split; [reflexivity |]. split; [reflexivity |]. split; [exact Hbuf |].
  exact (proj1 (proj2
    (interrupted_audio_is_played_on_response_done
       Sample.json_loads Sample.b64decode Sample.py_str
       (Ok Sample.rag_pipeline) Sample.speech_started Sample.response_done
       1%float 2%float Sample2.buffering
       eq_refl eq_refl Hbuf eq_refl eq_refl))).
Defined.

(** The gate as the loop starts is consistent. *)
Lemma listening_is_consistent : gate_consistent Vad.listening.
Proof.
  split; [reflexivity |]. split.
  - intros _. split; reflexivity.
  - intros H. discriminate H.
Defined.

Lemma gate_stays_consistent_witness :
  gate_consistent Vad.listening /\
  gate_consistent
    (fst (Vad.record_and_stream_audio
            [(Vad.loud, 1%float); (Vad.quiet, 1.1%float)] Vad.listening)).
Proof.
  split; [exact listening_is_consistent |].
  exact (gate_stays_consistent
           [(Vad.loud, 1%float); (Vad.quiet, 1.1%float)] Vad.listening
           listening_is_consistent).
Defined.

Lemma handed_off_utterances_open_with_speech_witness :
  gate_consistent Vad.listening /\
  Forall opens_with_speech
    (handoffs (snd (Vad.record_and_stream_audio
                      [(Vad.loud, 1%float); (Vad.quiet, 1.1%float);
                       (Vad.quiet, 1.5%float)] Vad.listening))).
Proof.
  split; [exact listening_is_consistent |].
  exact (handed_off_utterances_open_with_speech
           [(Vad.loud, 1%float); (Vad.quiet, 1.1%float);
            (Vad.quiet, 1.5%float)] Vad.listening
           listening_is_consistent).
Defined.

Lemma at_most_one_handoff_until_processing_ends_witness :
  Vad.is_processing Sample2.pausing = true /\
  handoffs (snd (Vad.record_and_stream_audio
                   [(Vad.quiet, 1.5%float)] Sample2.pausing)) = [].
Proof.
  split; [reflexivity |].
  exact (proj2 (proj2 (at_most_one_handoff_until_processing_ends
                         [(Vad.quiet, 1.5%float)] Sample2.pausing)
                  eq_refl)).
Defined.

(** A frame of three bytes. *)
Lemma odd_sized_frame_ends_recording_witness :
  Nat.even (List.length [x00; x00; x00]) = false /\
  Vad.is_silent [x00; x00; x00] = Raise ValueError /\
  Nat.even (List.length Vad.quiet) = true /\
  exists silent, Vad.is_silent Vad.quiet = Ok silent.
Proof.
  split; [reflexivity |].
  split; [exact (proj1 (proj2 (odd_sized_frame_ends_recording
                                 [x00; x00; x00]) eq_refl)) |].
  split; [reflexivity |].
  exact (proj1 (odd_sized_frame_ends_recording Vad.quiet) eq_refl).
Defined.

Lemma process_audio_sends_append_commit_create_witness :
  (forall event, Sample2.ws_send_ok event = Ok tt) /\
  snd (fst (Worker.process_audio Sample2.b64encode Sample2.ws_send_ok
              true true [Vad.loud; Vad.quiet] Sample2.pausing)) =
  [Worker.append_message Sample2.b64encode
     (List.concat [Vad.loud; Vad.quiet]);
   Worker.commit_message; Worker.create_message].
Proof.
  split; [intros event; reflexivity |].
  exact (f_equal (fun r => snd (fst r))
           (process_audio_sends_append_commit_create
              Sample2.b64encode Sample2.ws_send_ok true
              [Vad.loud; Vad.quiet] Sample2.pausing
              (fun event => eq_refl))).
Defined.

Lemma failed_send_blocks_every_later_utterance_witness :
  Vad.is_processing Sample2.pausing = true /\
  Worker.process_audio Sample2.b64encode Sample2.ws_send_closed
    true true [Vad.loud] Sample2.pausing =
  (Sample2.pausing, [], Raise ValueError) /\
  handoffs (snd (Vad.record_and_stream_audio
                   [(Vad.quiet, 1.5%float); (Vad.loud, 2%float);
                    (Vad.quiet, 2.1%float); (Vad.quiet, 2.5%float)]
                   Sample2.pausing)) = [].
Proof.
  split; [reflexivity |]. split; [reflexivity |].
  exact (proj1 (proj2
    (failed_send_blocks_every_later_utterance
       Sample2.b64encode Sample2.ws_send_closed true true [Vad.loud]
       Sample2.pausing Sample2.pausing [] ValueError
       [(Vad.quiet, 1.5%float); (Vad.loud, 2%float);
        (Vad.quiet, 2.1%float); (Vad.quiet, 2.5%float)]
       eq_refl eq_refl))).
Defined.

Lemma handoff_resumes_after_process_audio_witness :
  (forall event, Sample2.ws_send_ok event = Ok tt) /\
  Vad.is_speaking Sample2.pausing = true /\
  Vad.silence_start Sample2.pausing = Some 1.1%float /\
  Vad.is_silent Vad.quiet = Ok true /\
  PrimFloat.ltb Vad.SILENCE_DURATION
    (PrimFloat.sub 1.5%float 1.1%float) = true /\
  Vad.frame_step Vad.quiet 1.5%float
    (fst (fst (Worker.process_audio Sample2.b64encode Sample2.ws_send_ok
                 true true [Vad.loud] Sample2.pausing))) =
  Ok (Vad.mkGate false true false None [],
      [Vad.StartProcessAudio [Vad.loud; Vad.quiet]]).
Proof.
  assert (Hquiet : Vad.is_silent Vad.quiet = Ok true)
    by (vm_compute; reflexivity).
  assert (Hlong : PrimFloat.ltb Vad.SILENCE_DURATION
                    (PrimFloat.sub 1.5%float 1.1%float) = true)
    by (vm_compute; reflexivity).
  split; [intros event; reflexivity |].
  split; [reflexivity |]. split; [reflexivity |].
  split; [exact Hquiet |]. split; [exact Hlong |].
  exact (handoff_resumes_after_process_audio
           Sample2.b64encode Sample2.ws_send_ok true [Vad.loud]
           Sample2.pausing Vad.quiet 1.5%float 1.1%float
           (fun event => eq_refl) eq_refl eq_refl Hquiet Hlong).
Defined.

(** Five words in chunks of three with an overlap of one. *)
Lemma chunk_count_and_sizes_witness :
  0 <= 1 < 3 /\
  Loader.split_text_into_chunks Sample2.findall "a b  c d e" 3 1 =
  Ok ["a b c"; "c d e"; "e"].
Proof.
  assert (Hov : 0 <= 1 < 3) by lia.
  split; [exact Hov |].
  destruct (chunk_count_and_sizes Sample2.findall "a b  c d e" 3 1 Hov)
    as (chunks & Hwords & Hsplit & _).
  rewrite Hsplit. vm_compute in Hwords. injection Hwords as <-.
  reflexivity.
Defined.

Lemma chunks_cover_the_text_witness :
  0 <= 1 < 3 /\
  Loader.word_chunks ["a"; "b"; "c"; "d"; "e"] 3 1 =
    Ok [["a"; "b"; "c"]; ["c"; "d"; "e"]; ["e"]] /\
  List.concat (map (firstn (Z.to_nat (3 - 1)))
                   [["a"; "b"; "c"]; ["c"; "d"; "e"]; ["e"]])
  = ["a"; "b"; "c"; "d"; "e"].
Proof.
  assert (Hov : 0 <= 1 < 3) by lia.
  split; [exact Hov |]. split; [reflexivity |].
  exact (chunks_cover_the_text ["a"; "b"; "c"; "d"; "e"] 3 1
           [["a"; "b"; "c"]; ["c"; "d"; "e"]; ["e"]] Hov eq_refl).
Defined.

Lemma overlap_not_below_chunk_size_witness :
  Loader.split_text_into_chunks Sample2.findall "a b c" 3 3 =
    Raise ValueError /\
  3 < 4 /\
  Loader.split_text_into_chunks Sample2.findall "a b c" 3 4 = Ok [].
Proof.
  split; [| split; [lia |]].
  - exact (proj1 (overlap_not_below_chunk_size
                    Sample2.findall "a b c" 3 3) eq_refl).
  - exact (proj2 (overlap_not_below_chunk_size
                    Sample2.findall "a b c" 3 4) ltac:(lia)).
Defined.

(** Three words, chunks of three, overlap of one: the step is two. *)
Lemma short_text_yields_redundant_chunks_witness :
  0 <= 1 < 3 /\
  3 - 1 < len ["a"; "b"; "c"] <= 3 /\
  Loader.word_chunks ["a"; "b"; "c"] 3 1 = Ok [["a"; "b"; "c"]; ["c"]].
Proof.
  assert (Hov : 0 <= 1 < 3) by lia.
  assert (Hn : 3 - 1 < len ["a"; "b"; "c"] <= 3) by (cbn; lia).
  split; [exact Hov |]. split; [exact Hn |].
  destruct (short_text_yields_redundant_chunks ["a"; "b"; "c"] 3 1 Hov Hn)
    as (more & Hchunks & _).
  reflexivity.
Defined.

(** Two audio deltas, then three turns of the playback loop. *)
Lemma received_audio_is_written_in_order_witness :
  let messages := [Sample.audio_delta "AQID"; Sample.audio_delta "BA=="] in
  let chunks := [[x01; x02; x03]; [x04]] in
  Forall2 (Playback.carries_audio Sample2.parsed Sample.b64decode)
          messages chunks /\
  (List.length chunks <= 3)%nat /\
  Playback.written
    (snd (Playback.playback 3
            (Playback.mkPlayer
               (Playback.on_messages Sample2.parsed Sample.b64decode
                  messages [])
               None)))
  = chunks.
Proof.
  intros messages chunks.
  assert (Hall : Forall2 (Playback.carries_audio Sample2.parsed
                            Sample.b64decode) messages chunks).
  { constructor; [| constructor; [| constructor]].
    - exists (Sample.audio_delta "AQID"), (VStr "AQID"). repeat split.
    - exists (Sample.audio_delta "BA=="), (VStr "BA=="). repeat split. }
  assert (Hturns : (List.length chunks <= 3)%nat) by (cbn; lia).
  split; [exact Hall |]. split; [exact Hturns |].
  exact (proj1 (proj2
    (proj2 (received_audio_is_written_in_order
              Sample2.parsed Sample.b64decode messages chunks None 3)
       Hall Hturns))).
Defined.

(** * The pacer, the flush and the tool call on concrete runs *)

(** The scenario of 1000, 1000 and 1500 zero bytes, all read at time 100 by
    a new client, whose [_last_audio_time] is 0. *)
Lemma pacer_releases_when_both_conditions_hold_witness :
  let c := __init__ false true false [] in
  let e1000 := Sample.audio_delta Sample.zeros_1000 in
  let e1500 := Sample.audio_delta Sample.zeros_1500 in
  let r := message_loop Sample.json_loads Sample.b64decode Sample.py_str
             (Ok Sample.rag_pipeline)
             [(e1000, 100%float); (e1000, 100%float); (e1500, 100%float)] c in
  (on_audio_delta c = true /\
   _audio_buffer c = [] /\
   _current_audio_sample_count c = 0 /\
   is_audio_delta Sample.b64decode e1000 (repeat x00 1000) /\
   is_audio_delta Sample.b64decode e1500 (repeat x00 1500) /\
   len (repeat x00 1000) = 1000 /\
   len (repeat x00 1500) = 1500) /\
  PrimFloat.leb
    (PrimFloat.mul (PrimFloat.div (float_of_Z 3500) 48000%float) 0.95%float)
    (PrimFloat.sub 100%float (_last_audio_time c)) = true /\
  played (effects r) =
    [(repeat x00 1000 ++ repeat x00 1000 ++ repeat x00 1500)%list] /\
  _audio_buffer (final r) = [] /\
  _current_audio_sample_count (final r) = 1750 /\
  _last_audio_time (final r) = 100%float.
Proof.
  intros c e1000 e1500 r.
  assert (H1000 : len (repeat x00 1000) = 1000) by (vm_compute; reflexivity).
  assert (H1500 : len (repeat x00 1500) = 1500) by (vm_compute; reflexivity).
  assert (Htime : PrimFloat.leb
                    (PrimFloat.mul
                       (PrimFloat.div (float_of_Z 3500) 48000%float)
                       0.95%float)
                    (PrimFloat.sub 100%float (_last_audio_time c)) = true)
    by (vm_compute; reflexivity).
  split.
  { repeat (split; [first [reflexivity | exact decode_zeros_1000
                          | exact decode_zeros_1500 | assumption] |]).
    assumption. }
  split; [exact Htime |].
  pose proof (proj2 (proj2 (proj2
                (pacer_releases_when_both_conditions_hold
                   Sample.json_loads Sample.b64decode Sample.py_str
                   (Ok Sample.rag_pipeline))))
              e1000 e1000 e1500 100%float 100%float 100%float
              (repeat x00 1000) (repeat x00 1000) (repeat x00 1500) c
              eq_refl eq_refl eq_refl
              decode_zeros_1000 H1000 decode_zeros_1000 H1000
              decode_zeros_1500 H1500) as Hscenario.
  cbv zeta in Hscenario. rewrite Htime in Hscenario.
  exact (proj2 (proj2 Hscenario)).
Defined.

(** C5, as stated, fails: the release made by [response.done] is a release
    too, and the pacer does not count the time from it.  A first response
    releases 3600 bytes on a delta at time 10 and its last 1000 bytes on
    [response.done] at time 20; the next response brings 3600 bytes 0.06 s
    later, less than the 0.07125 s the claim asks for since the last
    release, and they are released at once, the time being counted from the
    release at time 10. *)
Lemma flush_does_not_restart_release_timer :
  let first :=
    Sample.run [(Sample.response_created "resp_1", 9%float);
                (Sample.audio_delta Sample.zeros_3600, 10%float);
                (Sample.audio_delta Sample.zeros_1000, 10.5%float);
                (Sample.response_done, 20%float)]
      (__init__ false true false []) in
  let second :=
    Sample.run [(Sample.response_created "resp_2", 20.01%float);
                (Sample.audio_delta Sample.zeros_3600, 20.06%float)]
      (final first) in
  outcome first = Ok tt /\
  map len (played (effects first)) = [3600; 1000] /\
  _last_audio_time (final first) = 10%float /\
  PrimFloat.leb
    (PrimFloat.mul (PrimFloat.div (float_of_Z 3600) 48000%float) 0.95%float)
    (PrimFloat.sub 20.06%float 20%float) = false /\
  outcome second = Ok tt /\
  map len (played (effects second)) = [3600] /\
  _audio_buffer (final second) = [].
Proof. vm_compute. repeat split. Qed.


(** Arguments that are not JSON, and a tool name the client does not know,
    with the module [utils.py] of the repository. *)
Lemma tool_call_parse_failure_ends_loop_and_name_is_ignored_witness :
  let bad := Sample.function_call "c1" "lookup" "not json" in
  let known := Sample.function_call "c2" "lookup" Sample.query_X in
  let other := Sample.function_call "c2" "no_such_tool" Sample.query_X in
  let import := Utils.import_rag_pipeline Sample.rag_pipeline in
  let c := __init__ true true true [] in
  (is_function_call bad (VStr "c1") (VStr "lookup") (VStr "not json") /\
   Sample.json_loads (VStr "not json") = Raise JSONDecodeError /\
   handle_messages Sample.json_loads Sample.b64decode Sample.py_str import
     [(bad, 5%float); (Sample.speech_started, 6%float)] c =
   (Raise JSONDecodeError, c,
    [PrintExn "Error in message handling: " JSONDecodeError])) /\
  (is_function_call known (VStr "c2") (VStr "lookup")
     (VStr Sample.query_X) /\
   is_function_call other (VStr "c2") (VStr "no_such_tool")
     (VStr Sample.query_X) /\
   handle_event Sample.json_loads Sample.b64decode Sample.py_str import
     other 5%float c =
   handle_event Sample.json_loads Sample.b64decode Sample.py_str import
     known 5%float c).
Proof.
  intros bad known other import c.
  assert (Hbad : is_function_call bad (VStr "c1") (VStr "lookup")
                   (VStr "not json")) by (repeat split).
  assert (Hknown : is_function_call known (VStr "c2") (VStr "lookup")
                     (VStr Sample.query_X)) by (repeat split).
  assert (Hother : is_function_call other (VStr "c2") (VStr "no_such_tool")
                     (VStr Sample.query_X)) by (repeat split).
  split.
  - split; [exact Hbad |]. split; [reflexivity |].
    exact (proj1 (tool_call_parse_failure_ends_loop_and_name_is_ignored
                    Sample.json_loads Sample.b64decode Sample.py_str import)
             bad 5%float [(Sample.speech_started, 6%float)] c
             (VStr "c1") (VStr "lookup") (VStr "not json") JSONDecodeError
             Hbad eq_refl).
  - split; [exact Hknown |]. split; [exact Hother |].
    exact (proj2 (tool_call_parse_failure_ends_loop_and_name_is_ignored
                    Sample.json_loads Sample.b64decode Sample.py_str import)
             known other 5%float c
             (VStr "c2") (VStr "lookup") (VStr "no_such_tool")
             (VStr Sample.query_X) Hknown Hother).
Defined.

(** The tool call of the claim: call id ["c1"], name ["lookup"], arguments
    [{"query":"X"}], a retrieval function that would answer ["ANSWER"].  The
    loop ends with [NameError] and nothing is written to the socket. *)
Lemma tool_call_ends_the_loop_on_import_witness :
  let event := Sample.function_call "c1" "lookup" Sample.query_X in
  let c := __init__ true true true [] in
  let r := handle_messages Sample.json_loads Sample.b64decode Sample.py_str
             (Utils.import_rag_pipeline Sample.rag_pipeline)
             [(event, 5%float)] c in
  (is_function_call event (VStr "c1") (VStr "lookup") (VStr Sample.query_X) /\
   Sample.json_loads (VStr Sample.query_X) =
     Ok (VDict [("query", VStr "X")]) /\
   Sample.rag_pipeline (VStr "X") = Ok (VStr "ANSWER")) /\
  r = (Raise NameError, c,
       [PrintExn "Error in message handling: " NameError]) /\
  sent (effects r) = [].
Proof.
  intros event c r.
  assert (Hcall : is_function_call event (VStr "c1") (VStr "lookup")
                    (VStr Sample.query_X)) by (repeat split).
  split; [split; [exact Hcall | split; reflexivity] |].
  exact (tool_call_ends_the_loop_on_import
           Sample.json_loads Sample.b64decode Sample.py_str
           Sample.rag_pipeline event 5%float [] c
           (VStr "c1") (VStr "lookup") (VStr Sample.query_X)
           (VDict [("query", VStr "X")]) Hcall eq_refl).
Defined.
